(** * Medallion pipeline (backend/app/medallion_pipeline.py)

    A shallow embedding of the Bronze -> Silver -> Gold transformation of
    clinical documents: the regular-expression extraction of medications,
    diagnoses and lab values, the quality and business-value scores, and
    the aggregation of the entities of a document into a patient profile.

    Conventions of the embedding.
    - A Python [str] is a list of characters; a character is an 8-bit
      code point (the Latin-1 block of Unicode), which is where the
      classes [\s], [\d] and [str.lower] are spelled out below.
    - A Python [float] is a binary64 number ([PrimFloat.float]); the
      arithmetic is the IEEE one the interpreter uses.
    - [datetime.now()] and the transformation log of the transformer are
      the only effects; they are threaded through a small state monad.
      Calls of [logger] only format their arguments and are left out. *)

From Stdlib Require Import ZArith Bool Ascii String Lia DecimalString.
From Stdlib Require Import PrimFloat SpecFloat FloatOps.
From Stdlib Require Import List.
Import ListNotations.

Set Warnings "-inexact-float".
Set Implicit Arguments.

(* ================================================================= *)
(** ** Python strings *)

Module PyStr.

Definition str := list ascii.

(** A literal of the source, written as a Rocq string. *)
Definition py (s : string) : str := list_ascii_of_string s.

Definition code (c : ascii) : N := N_of_ascii c.

(** [c.isdigit()] as [\d] sees it: the decimal digits. *)
Definition isdigit (c : ascii) : bool :=
  ((48 <=? code c) && (code c <=? 57))%N.

(** [c.isspace()], which is also the class [\s] of a str pattern:
    TAB, LF, VT, FF, CR, the separators FS, GS, RS, US, the space,
    NEL (0x85) and the no-break space (0xA0). *)
Definition isspace (c : ascii) : bool :=
  (((9 <=? code c) && (code c <=? 13))
   || ((28 <=? code c) && (code c <=? 32))
   || (code c =? 133) || (code c =? 160))%N.

(** [c.lower()]: A-Z, and the capital letters of the Latin-1 supplement
    (0xC0-0xDE without the multiplication sign 0xD7), move up by 32. *)
Definition lower_char (c : ascii) : ascii :=
  if (((65 <=? code c) && (code c <=? 90))
      || ((192 <=? code c) && (code c <=? 222) && negb (code c =? 215)))%N
  then ascii_of_N (code c + 32)
  else c.

(** [s.lower()] *)
Definition lower (s : str) : str := map lower_char s.

(** [a == b] on strings. *)
Fixpoint str_eqb (a b : str) : bool :=
  match a, b with
  | [], [] => true
  | x :: a', y :: b' => Ascii.eqb x y && str_eqb a' b'
  | _, _ => false
  end.

(** [s.startswith(p)], returning what follows the prefix. *)
Fixpoint strip_prefix (p s : str) : option str :=
  match p with
  | [] => Some s
  | x :: p' =>
      match s with
      | y :: s' => if Ascii.eqb x y then strip_prefix p' s' else None
      | [] => None
      end
  end.

Definition startswith (s p : str) : bool :=
  match strip_prefix p s with Some _ => true | None => false end.

(** [needle in hay] *)
Fixpoint contains (needle hay : str) : bool :=
  startswith hay needle
  || match hay with
     | [] => false
     | _ :: hay' => contains needle hay'
     end.

(** [s.lstrip()], [s.rstrip()] and [s.strip()] *)
Fixpoint lstrip (s : str) : str :=
  match s with
  | c :: s' => if isspace c then lstrip s' else s
  | [] => []
  end.

Definition rstrip (s : str) : str := rev (lstrip (rev s)).

Definition strip (s : str) : str := rstrip (lstrip s).

(** Truth value of an optional string: [None] and [""] are false. *)
Definition truthy (o : option str) : bool :=
  match o with
  | Some (_ :: _) => true
  | _ => false
  end.

End PyStr.
Import PyStr.

(* ================================================================= *)
(** ** The fragment of [re] the pipeline uses *)

Module Re.

Inductive cls := Space | Digit.

Definition cls_mem (k : cls) (c : ascii) : bool :=
  match k with
  | Space => isspace c
  | Digit => isdigit c
  end.

(** Patterns: literals, the greedy [k*] and [k+] of a character class,
    the greedy [r?], concatenation and numbered capture groups. *)
Inductive regex :=
| Lit (l : str)
| Star (k : cls)
| Plus (k : cls)
| Opt (r : regex)
| Seq (r1 r2 : regex)
| Group (n : nat) (r : regex).

Definition captures := list (nat * str).

Fixpoint lookup (n : nat) (g : captures) : option str :=
  match g with
  | [] => None
  | (m, v) :: g' => if Nat.eqb n m then Some v else lookup n g'
  end.

(** The ways to read [k*] at the start of [s], the longest repetition
    first: what is read, and what remains. *)
Fixpoint star_class (k : cls) (s : str) : list (str * str) :=
  match s with
  | c :: s' =>
      if cls_mem k c
      then map (fun x => (c :: fst x, snd x)) (star_class k s') ++ [([], s)]
      else [([], s)]
  | [] => [([], [])]
  end.

Definition plus_class (k : cls) (s : str) : list (str * str) :=
  match s with
  | c :: s' =>
      if cls_mem k c
      then map (fun x => (c :: fst x, snd x)) (star_class k s')
      else []
  | [] => []
  end.

(** One way a pattern matches: the text read, the text that remains
    and the groups set so far. *)
Definition result : Type := str * str * captures.

Definition read (x : result) : str := fst (fst x).
Definition remains (x : result) : str := snd (fst x).
Definition groups_of (x : result) : captures := snd x.

(** All the ways [r] matches at the start of [s], in the order the
    backtracking matcher tries them. *)
Fixpoint run (r : regex) (s : str) (g : captures) : list result :=
  match r with
  | Lit l =>
      match strip_prefix l s with
      | Some s' => [(l, s', g)]
      | None => []
      end
  | Star k => map (fun x => (fst x, snd x, g)) (star_class k s)
  | Plus k => map (fun x => (fst x, snd x, g)) (plus_class k s)
  | Opt r1 => run r1 s g ++ [([], s, g)]
  | Seq r1 r2 =>
      flat_map (fun x =>
                  map (fun y => (read x ++ read y, remains y, groups_of y))
                    (run r2 (remains x) (groups_of x)))
        (run r1 s g)
  | Group n r1 =>
      map (fun x => (read x, remains x, (n, read x) :: groups_of x))
        (run r1 s g)
  end.

(** A match object: [group(0)], the numbered groups, and the text after
    the match. *)
Record Match := mkMatch {
  group0 : str;
  groups : captures;
  after : str
}.

Definition group (m : Match) (n : nat) : option str := lookup n (groups m).

(** [re.match]: the first way the pattern matches at the start of [s]. *)
Definition match_at (r : regex) (s : str) : option Match :=
  match run r s [] with
  | x :: _ => Some (mkMatch (read x) (groups_of x) (remains x))
  | [] => None
  end.

(** [re.search]: the leftmost position with a match. *)
Fixpoint search (r : regex) (s : str) : option Match :=
  match match_at r s with
  | Some m => Some m
  | None =>
      match s with
      | [] => None
      | _ :: s' => search r s'
      end
  end.

(** [re.finditer]: the successive matches from left to right, each scan
    resuming where the previous match ended ([skip] counts the characters
    of the last match still to pass).  No pattern of the pipeline matches
    the empty string (see [matches_are_not_empty]), so the rule for empty
    matches is not needed. *)
Fixpoint finditer_from (r : regex) (s : str) (skip : nat) : list Match :=
  match s with
  | [] => []
  | _ :: s' =>
      match skip with
      | S k => finditer_from r s' k
      | O =>
          match match_at r s with
          | Some m => m :: finditer_from r s' (length (group0 m) - 1)
          | None => finditer_from r s' 0
          end
      end
  end.

Definition finditer (r : regex) (s : str) : list Match := finditer_from r s 0.

(** The number of positions of [s] at which the pattern matches. *)
Fixpoint occurrences (r : regex) (s : str) : nat :=
  match s with
  | [] => 0
  | _ :: s' =>
      (match match_at r s with Some _ => 1 | None => 0 end) + occurrences r s'
  end.

(** A lower bound on the length of a match. *)
Fixpoint min_len (r : regex) : nat :=
  match r with
  | Lit l => length l
  | Star _ => 0
  | Plus _ => 1
  | Opt _ => 0
  | Seq r1 r2 => min_len r1 + min_len r2
  | Group _ r1 => min_len r1
  end.

End Re.
Import Re.

Declare Scope re_scope.
Delimit Scope re_scope with re.
Infix "@@" := Seq (at level 60, right associativity) : re_scope.
Notation "\s+" := (Plus Space) : re_scope.
Notation "\s*" := (Star Space) : re_scope.
Notation "\d+" := (Plus Digit) : re_scope.
Notation "\d*" := (Star Digit) : re_scope.

(* ================================================================= *)
(** ** Python floats *)

Module PyFloat.

Open Scope float_scope.

(** [float(n)] of an integer: the nearest binary64 number. *)
Definition of_int (n : Z) : float :=
  SF2Prim (binary_normalize prec emax n 0 false).

(** The nearest binary64 number to the fraction [n / d], [d > 0]. *)
Definition of_ratio (n d : Z) : float :=
  match n, d with
  | Zpos p, Zpos q =>
      SF2Prim (SFdiv prec emax (S754_finite false p 0) (S754_finite false q 0))
  | _, _ => 0
  end.

Definition digit_val (c : ascii) : Z := Z.of_N (code c) - 48.

(** The number a string of decimal digits denotes. *)
Definition decimal (s : str) : Z :=
  fold_left (fun acc c => 10 * acc + digit_val c)%Z s 0%Z.

(** The text before the first ['.'] and, when there is one, the text
    after it. *)
Fixpoint split_dot (s : str) : str * option str :=
  match s with
  | [] => ([], None)
  | c :: s' =>
      if Ascii.eqb c "."%char then ([], Some s')
      else let (a, b) := split_dot s' in (c :: a, b)
  end.

(** [float(s)] for the numerals the pipeline hands to it, digits with
    an optional fraction ([\d+\.?\d*]): the nearest binary64 number to
    the decimal value.  [None] stands for [ValueError]. *)
Definition of_str (s : str) : option float :=
  let (ip, fp) := split_dot s in
  let fr := match fp with Some f => f | None => [] end in
  match ip with
  | [] => None
  | _ :: _ =>
      if forallb isdigit ip && forallb isdigit fr
      then Some (of_ratio (decimal (ip ++ fr)) (10 ^ Z.of_nat (length fr)))
      else None
  end.

(** [min(x, y)]: the first argument, unless the second is smaller. *)
Definition min (x y : float) : float := if y <? x then y else x.

End PyFloat.

(* ================================================================= *)
(** ** Effects: the clock and the transformation log *)

Module Effects.

Inductive metric :=
| MInt (n : Z)
| MFloat (x : float).

Record LogEntry := mkLogEntry {
  timestamp : str;
  stage : str;
  entity_id : str;
  metric_of : metric
}.

(** The state a call runs in: the readings [datetime.now().isoformat()]
    gives ([clock k] is the k-th reading), how many were taken so far, and
    [self.transformation_log]. *)
Record World := mkWorld {
  clock : nat -> str;
  ticks : nat;
  transformation_log : list LogEntry
}.

Definition M (A : Type) : Type := World -> A * World.

Definition ret {A} (a : A) : M A := fun w => (a, w).

Definition bind {A B} (c : M A) (k : A -> M B) : M B :=
  fun w => let (a, w') := c w in k a w'.

(** [datetime.now().isoformat()] *)
Definition now_isoformat : M str :=
  fun w => (clock w (ticks w),
            mkWorld (clock w) (S (ticks w)) (transformation_log w)).

(** [self.transformation_log.append(entry)] *)
Definition log_append (entry : LogEntry) : M unit :=
  fun w => (tt, mkWorld (clock w) (ticks w) (transformation_log w ++ [entry])).

(** A [for] loop that updates an accumulator. *)
Fixpoint for_ {A S} (xs : list A) (body : A -> S -> M S) (acc : S) : M S :=
  match xs with
  | [] => ret acc
  | x :: xs' => bind (body x acc) (for_ xs' body)
  end.

End Effects.
Import Effects.

Notation "x <- c ;; k" := (bind c (fun x => k))
  (at level 61, c at next level, right associativity).

(* ================================================================= *)
(** ** The stage decorators *)

(** What [silver_layer] adds to an instance. *)
Record silver (A : Type) := mkSilver {
  obj : A;
  _layer : str;
  _processed_at : str;
  _quality_score : float
}.

Definition silver_layer {A} (_calculate_quality_score : A -> float)
    (instance : A) : M (silver A) :=
  t <- now_isoformat ;;
  ret (mkSilver instance (py "silver") t (_calculate_quality_score instance)).

(** What [gold_layer] adds to an instance. *)
Module Gold.
Record t (A : Type) := mk {
  obj : A;
  _layer : str;
  _enriched_at : str;
  _business_value : float
}.
End Gold.

Definition gold_layer {A} (_calculate_business_value : A -> float)
    (instance : A) : M (Gold.t A) :=
  t <- now_isoformat ;;
  ret (Gold.mk instance (py "gold") t (_calculate_business_value instance)).

(* ================================================================= *)
(** ** Silver layer: the dataclasses and their quality scores *)

Open Scope float_scope.

(** Truth value of an optional dict: [None] and [{}] are false. *)
Definition truthy_dict (o : option (list (str * str))) : bool :=
  match o with
  | Some (_ :: _) => true
  | _ => false
  end.

Module SilverClinicalEntity.

Record t := mk {
  entity_type : str;
  entity_value : str;
  confidence_score : float;
  extracted_from : str;
  normalized_code : option str;
  temporal_info : option (list (str * str))
}.

Definition _calculate_quality_score (self : t) : float :=
  let base_score := confidence_score self in
  let base_score :=
    if truthy (normalized_code self) then base_score + 0.2 else base_score in
  let base_score :=
    if truthy_dict (temporal_info self) then base_score + 0.1 else base_score in
  PyFloat.min base_score 1.0.

End SilverClinicalEntity.

Module SilverLabResult.

(** [value] is a float or a string. *)
Record t := mk {
  test_name : str;
  value : float + str;
  unit : option str;
  reference_range : option str;
  test_date : str;
  abnormal_flag : option str;
  loinc_code : option str
}.

Definition _calculate_quality_score (self : t) : float :=
  let score := 0.6 in
  let score := if truthy (unit self) then score + 0.1 else score in
  let score := if truthy (reference_range self) then score + 0.1 else score in
  let score := if truthy (abnormal_flag self) then score + 0.1 else score in
  let score := if truthy (loinc_code self) then score + 0.2 else score in
  score.

End SilverLabResult.

Module SilverMedication.

Record t := mk {
  medication_name : str;
  dosage : option str;
  frequency : option str;
  route : option str;
  start_date : option str;
  end_date : option str;
  rxnorm_code : option str
}.

(** [sum(...)] starts from 0 and adds the terms from left to right. *)
Definition _calculate_quality_score (self : t) : float :=
  let required_fields :=
    [Some (medication_name self); dosage self; frequency self] in
  let present_required := length (filter truthy required_fields) in
  let optional_score :=
    fold_left (fun acc _ => acc + 0.1)
      (filter truthy [route self; start_date self; rxnorm_code self]) 0 in
  (PyFloat.of_int (Z.of_nat present_required)
     / PyFloat.of_int (Z.of_nat (length required_fields))) * 0.7
  + optional_score.

End SilverMedication.

Module SilverDiagnosis.

Record t := mk {
  diagnosis_text : str;
  icd10_code : option str;
  diagnosis_date : option str;
  diagnosis_type : str;
  confidence_score : float
}.

Definition _calculate_quality_score (self : t) : float :=
  let score := confidence_score self * 0.6 in
  let score := if truthy (icd10_code self) then score + 0.3 else score in
  let score := if truthy (diagnosis_date self) then score + 0.1 else score in
  score.

End SilverDiagnosis.

Import SilverClinicalEntity.

Definition Entity := silver SilverClinicalEntity.t.

(** [SilverClinicalEntity(...)] as the module exports it: the dataclass
    under its decorator.  [fields] is the instance the dataclass builds
    from the arguments of the call. *)
Definition new_entity (fields : SilverClinicalEntity.t) : M Entity :=
  silver_layer SilverClinicalEntity._calculate_quality_score fields.

(* ================================================================= *)
(** ** Gold layer *)

Module GoldPatientProfile.

Record t := mk {
  patient_id : str;
  age_years : Z;
  sex : str;
  primary_conditions : list str;
  comorbidities : list str;
  current_medications : list str;
  contraindications : list str;
  geographic_location : str;
  trial_eligibility_factors : list (str * str)
}.

Definition nonempty {A} (l : list A) : bool :=
  match l with [] => false | _ :: _ => true end.

(** The five truth values [_calculate_business_value] adds up. *)
Definition completeness_flags (self : t) : list bool :=
  [ nonempty (primary_conditions self);
    nonempty (current_medications self);
    nonempty (geographic_location self);
    negb (age_years self =? 0)%Z;
    nonempty (sex self) ].

Definition completeness (self : t) : float :=
  PyFloat.of_int (Z.of_nat (length (filter id (completeness_flags self))))
  / PyFloat.of_int 5.

Definition len {A} (l : list A) : float := PyFloat.of_int (Z.of_nat (length l)).

Definition richness (self : t) : float :=
  PyFloat.min (len (primary_conditions self) * 0.2
               + len (comorbidities self) * 0.1
               + len (current_medications self) * 0.1) 1.0.

Definition _calculate_business_value (self : t) : float :=
  (completeness self * 0.7) + (richness self * 0.3).

End GoldPatientProfile.
Import GoldPatientProfile.

Definition Profile := Gold.t GoldPatientProfile.t.

(** The demographics dict: a key that is absent is [None]. *)
Module Demographics.
Record t := mk {
  age : option Z;
  sex : option str;
  location : option str
}.
End Demographics.

(** [d.get(key, default)] *)
Definition get {A} (o : option A) (default : A) : A :=
  match o with Some v => v | None => default end.

(** [d[key]] of a dict literal. *)
Fixpoint dict_get (d : list (str * str)) (key : str) : option str :=
  match d with
  | [] => None
  | (k, v) :: d' => if str_eqb k key then Some v else dict_get d' key
  end.

Module BronzeDocument.
Record t := mk {
  document_id : str;
  patient_id : str;
  source_system : str;
  document_type : str;
  raw_content : str;
  file_metadata : list (str * str);
  ingestion_timestamp : option str
}.
End BronzeDocument.

(* ================================================================= *)
(** ** MedallionTransformer *)

Module MedallionTransformer.

Open Scope re_scope.

(** [self._log_transformation(stage, entity_id, metric)] *)
Definition _log_transformation (stage entity_id : str) (m : metric) : M unit :=
  t <- now_isoformat ;;
  log_append (mkLogEntry t stage entity_id m).

(** *** Code tables *)

Definition rxnorm_codes : list (str * str) :=
  [ (py "metformin", py "6809");
    (py "lisinopril", py "29046");
    (py "atorvastatin", py "83367");
    (py "amlodipine", py "17767") ].

Definition _get_rxnorm_code (medication : str) : option str :=
  dict_get rxnorm_codes (lower medication).

Definition loinc_codes : list (str * str) :=
  [ (py "hemoglobin_a1c", py "4548-4");
    (py "glucose", py "2345-7");
    (py "creatinine", py "2160-0");
    (py "egfr", py "33914-3") ].

Definition _get_loinc_code (lab_name : str) : option str :=
  dict_get loinc_codes lab_name.

(** *** Extraction *)

(** [(name)\s+(\d+\s*mg)?] *)
Definition med_pattern (name : string) : regex :=
  Group 1 (Lit (py name)) @@ \s+
  @@ Opt (Group 2 (\d+ @@ \s* @@ Lit (py "mg"))).

Definition med_patterns : list regex :=
  [ med_pattern "metformin";
    med_pattern "lisinopril";
    med_pattern "atorvastatin";
    med_pattern "amlodipine";
    med_pattern "glipizide";
    med_pattern "losartan";
    med_pattern "semaglutide" ].

(** [match.group(n)] of a group that takes part in every match. *)
Definition group_str (m : Match) (n : nat) : str := get (group m n) [].

(** The arguments of the constructor call in the loop body;
    [temporal_info] keeps its default. *)
Definition medication_of_match (m : Match) : SilverClinicalEntity.t :=
  let med_name := group_str m 1 in
  let dosage := group m 2 in
  SilverClinicalEntity.mk
    (py "medication")
    (if truthy dosage
     then strip (med_name ++ py " " ++ get dosage [])
     else med_name)
    0.9
    (group0 m)
    (_get_rxnorm_code med_name)
    None.

Definition _extract_medications (text : str) : M (list Entity) :=
  for_ med_patterns (fun pattern medications =>
    for_ (finditer pattern (lower text)) (fun m medications =>
      entity <- new_entity (medication_of_match m) ;;
      ret (medications ++ [entity])) medications) [].

Definition diagnosis_patterns : list (regex * str * str) :=
  [ (Lit (py "type") @@ \s+ @@ Lit (py "2") @@ \s+ @@ Lit (py "diabetes"),
     py "E11.9", py "Type 2 Diabetes");
    (Lit (py "hypertension"), py "I10", py "Essential Hypertension");
    (Lit (py "hyperlipidemia"), py "E78.5", py "Hyperlipidemia");
    (Lit (py "chronic") @@ \s+ @@ Lit (py "kidney") @@ \s+
       @@ Lit (py "disease"),
     py "N18.3", py "Chronic kidney disease");
    (Lit (py "obesity"), py "E66.9", py "Obesity") ].

Definition diagnosis_of_match (icd_code standard_name : str) (m : Match)
    : SilverClinicalEntity.t :=
  SilverClinicalEntity.mk
    (py "diagnosis") standard_name 0.95 (group0 m) (Some icd_code) None.

Definition _extract_diagnoses (text : str) : M (list Entity) :=
  for_ diagnosis_patterns (fun '(pattern, icd_code, standard_name) diagnoses =>
    for_ (finditer pattern (lower text)) (fun m diagnoses =>
      entity <- new_entity (diagnosis_of_match icd_code standard_name m) ;;
      ret (diagnoses ++ [entity])) diagnoses) [].

(** The groups [( \d+\.?\d* )] and [( \d+ )] *)
Definition number_group : regex := Group 1 (\d+ @@ Opt (Lit (py ".")) @@ \d* ).
Definition integer_group : regex := Group 1 \d+.

Definition lab_patterns : list (regex * str) :=
  [ (Lit (py "a1c") @@ Opt (Lit (py ":")) @@ \s* @@ number_group
       @@ \s* @@ Lit (py "%"),
     py "hemoglobin_a1c");
    (Lit (py "glucose") @@ Opt (Lit (py ":")) @@ \s* @@ integer_group
       @@ \s* @@ Lit (py "mg/dl"),
     py "glucose");
    (Lit (py "creatinine") @@ Opt (Lit (py ":")) @@ \s* @@ number_group
       @@ \s* @@ Lit (py "mg/dl"),
     py "creatinine");
    (Lit (py "egfr") @@ Opt (Lit (py ":")) @@ \s* @@ integer_group,
     py "egfr");
    (Lit (py "ldl") @@ Opt (Lit (py ":")) @@ \s* @@ integer_group,
     py "ldl_cholesterol");
    (Lit (py "hdl") @@ Opt (Lit (py ":")) @@ \s* @@ integer_group,
     py "hdl_cholesterol") ].

Definition lab_of_match (lab_name : str) (m : Match)
    : SilverClinicalEntity.t :=
  let value := group_str m 1 in
  SilverClinicalEntity.mk
    (py "lab_value") (lab_name ++ py ": " ++ value) 0.85 (group0 m)
    (_get_loinc_code lab_name) None.

Definition _extract_lab_values (text : str) : M (list Entity) :=
  for_ lab_patterns (fun '(pattern, lab_name) lab_values =>
    for_ (finditer pattern (lower text)) (fun m lab_values =>
      entity <- new_entity (lab_of_match lab_name m) ;;
      ret (lab_values ++ [entity])) lab_values) [].

Definition bronze_to_silver_document (bronze_doc : BronzeDocument.t)
    : M (list Entity) :=
  let entities := [] in
  meds <- _extract_medications (BronzeDocument.raw_content bronze_doc) ;;
  let entities := entities ++ meds in
  diags <- _extract_diagnoses (BronzeDocument.raw_content bronze_doc) ;;
  let entities := entities ++ diags in
  labs <- _extract_lab_values (BronzeDocument.raw_content bronze_doc) ;;
  let entities := entities ++ labs in
  _ <- _log_transformation (py "bronze_to_silver")
         (BronzeDocument.document_id bronze_doc)
         (MInt (Z.of_nat (length entities))) ;;
  ret entities.

(** *** Clinical assessments *)

Definition type_is (ty : string) (e : Entity) : bool :=
  str_eqb (entity_type (obj e)) (py ty).

(** [try: ... except: return "unknown"]: [None] is a raised exception. *)
Definition try_except (r : option str) : str := get r (py "unknown").

Definition _assess_diabetes_control (entities : list Entity) : str :=
  let a1c_entities :=
    filter (fun e => contains (py "hemoglobin_a1c") (entity_value (obj e)))
      entities in
  match a1c_entities with
  | [] => py "unknown"
  | e0 :: _ =>
      try_except
        (let a1c_text := entity_value (obj e0) in
         match search number_group a1c_text with
         | None => None
         | Some m =>
             match group m 1 with
             | None => None
             | Some g =>
                 match PyFloat.of_str g with
                 | None => None
                 | Some a1c_value =>
                     Some (if a1c_value <? 7.0 then py "well_controlled"
                           else if a1c_value <? 8.0
                                then py "moderately_controlled"
                                else py "poorly_controlled")
                 end
             end
         end)
  end.

Definition _assess_renal_function (entities : list Entity) : str :=
  let egfr_entities :=
    filter (fun e => contains (py "egfr") (entity_value (obj e))) entities in
  match egfr_entities with
  | [] => py "unknown"
  | e0 :: _ =>
      try_except
        (let egfr_text := entity_value (obj e0) in
         match search integer_group egfr_text with
         | None => None
         | Some m =>
             match group m 1 with
             | None => None
             | Some g =>
                 match PyFloat.of_str g with
                 | None => None
                 | Some egfr_value =>
                     Some (if 90 <=? egfr_value then py "normal"
                           else if 60 <=? egfr_value
                                then py "mild_impairment"
                                else if 30 <=? egfr_value
                                     then py "moderate_impairment"
                                     else py "severe_impairment")
                 end
             end
         end)
  end.

(** [any(word in e.entity_value.lower() for e in entities
         if e.entity_type == "diagnosis")] *)
Definition any_diagnosis_mentions (word : string) (entities : list Entity)
    : bool :=
  existsb (fun e => contains (py word) (lower (entity_value (obj e))))
    (filter (type_is "diagnosis") entities).

Definition _assess_cardiac_risk (entities : list Entity) : str :=
  let risk_factors := [] in
  let risk_factors :=
    if any_diagnosis_mentions "hypertension" entities
    then risk_factors ++ [py "hypertension"] else risk_factors in
  let risk_factors :=
    if any_diagnosis_mentions "hyperlipidemia" entities
    then risk_factors ++ [py "hyperlipidemia"] else risk_factors in
  let risk_factors :=
    if any_diagnosis_mentions "diabetes" entities
    then risk_factors ++ [py "diabetes"] else risk_factors in
  if (3 <=? length risk_factors)%nat then py "high"
  else if (2 <=? length risk_factors)%nat then py "moderate"
  else if (1 <=? length risk_factors)%nat then py "low"
  else py "minimal".

(** *** Aggregation *)

(** [[e.entity_value for e in entities if e.entity_type == ty]] *)
Definition values_of_type (ty : string) (entities : list Entity) : list str :=
  map (fun e => entity_value (obj e)) (filter (type_is ty) entities).

Definition silver_to_gold_patient (patient_id : str) (entities : list Entity)
    (demographics : Demographics.t) : M Profile :=
  let medications := values_of_type "medication" entities in
  let diagnoses := values_of_type "diagnosis" entities in
  let primary_conditions := firstn 3 diagnoses in
  let comorbidities := skipn 3 diagnoses in
  let contraindications := values_of_type "contraindication" entities in
  let eligibility_factors :=
    [ (py "diabetes_controlled", _assess_diabetes_control entities);
      (py "renal_function", _assess_renal_function entities);
      (py "cardiac_risk", _assess_cardiac_risk entities) ] in
  gold_profile <-
    gold_layer GoldPatientProfile._calculate_business_value
      (GoldPatientProfile.mk
         patient_id
         (get (Demographics.age demographics) 0%Z)
         (get (Demographics.sex demographics) (py "unknown"))
         primary_conditions
         comorbidities
         medications
         contraindications
         (get (Demographics.location demographics) (py "unknown"))
         eligibility_factors) ;;
  _ <- _log_transformation (py "silver_to_gold") patient_id
         (MFloat (Gold._business_value gold_profile)) ;;
  ret gold_profile.

(** *** Statistics *)

(** The value kept per stage: [{"count": ..., "avg_metric": ...}]. *)
Record StageStats := mkStageStats {
  count : Z;
  avg_metric : Z
}.

(** A dict with string keys, in insertion order. *)
Definition dict (V : Type) : Type := list (str * V).

(** [d.get(key)] *)
Fixpoint dict_find {V} (d : dict V) (key : str) : option V :=
  match d with
  | [] => None
  | (k, v) :: d' => if str_eqb k key then Some v else dict_find d' key
  end.

(** [d[key] = v]: a key already there keeps its place. *)
Fixpoint dict_set {V} (d : dict V) (key : str) (v : V) : dict V :=
  match d with
  | [] => [(key, v)]
  | (k, x) :: d' =>
      if str_eqb k key then (k, v) :: d' else (k, x) :: dict_set d' key v
  end.

(** The body of the loop over the log: the stage of the entry gets a
    record when it has none, and its count goes up by one. *)
Definition count_entry (stages : dict StageStats) (entry : LogEntry)
    : dict StageStats :=
  let stage := stage entry in
  let stages :=
    match dict_find stages stage with
    | None => dict_set stages stage (mkStageStats 0 0)
    | Some _ => stages
    end in
  match dict_find stages stage with
  | Some st => dict_set stages stage (mkStageStats (count st + 1) (avg_metric st))
  | None => stages
  end.

(** The dict [get_pipeline_stats] returns; a key that is not in it is
    [None]. *)
Record PipelineStats := mkPipelineStats {
  total_transformations : Z;
  stages : option (dict StageStats);
  last_transformation : option str
}.

Definition stats_of_log (log : list LogEntry) : PipelineStats :=
  match log with
  | [] => mkPipelineStats 0 None None
  | first :: _ =>
      let stages := fold_left count_entry log [] in
      mkPipelineStats (Z.of_nat (length log)) (Some stages)
        (Some (timestamp (last log first)))
  end.

Definition get_pipeline_stats : M PipelineStats :=
  fun w => (stats_of_log (transformation_log w), w).

End MedallionTransformer.
Import MedallionTransformer.

(* ================================================================= *)
(** ** The document endpoint (backend/app/main.py) *)

(** [str(n)]: the decimal digits of a natural number. *)
Definition str_of_nat (n : nat) : str :=
  py (NilZero.string_of_uint (Nat.to_uint n)).

(** What [bronze_layer] adds to an instance. *)
Module Bronze.
Record t (A : Type) := mk {
  obj : A;
  _layer : str;
  _ingested_at : str
}.
End Bronze.

Definition bronze_layer {A} (instance : A) : M (Bronze.t A) :=
  t <- now_isoformat ;;
  ret (Bronze.mk instance (py "bronze") t).

(** [BronzeDocument(...)] as the module exports it: [__post_init__]
    fills in a missing ingestion time from the clock, then the decorator
    stamps the instance. *)
Definition new_bronze_document (document_id patient_id source_system
    document_type raw_content : str) (file_metadata : list (str * str))
    (ingestion_timestamp : option str) : M (Bronze.t BronzeDocument.t) :=
  ingestion_timestamp <-
    (if truthy ingestion_timestamp then ret ingestion_timestamp
     else t <- now_isoformat ;; ret (Some t)) ;;
  bronze_layer
    (BronzeDocument.mk document_id patient_id source_system document_type
       raw_content file_metadata ingestion_timestamp).

Module Main.

(** A patient of the store: the keys the endpoint reads.  A key that is
    absent is [None]. *)
Record Preferences := mkPreferences {
  preferred_location : option str
}.

Record Patient := mkPatient {
  id : str;
  preferences : option Preferences
}.

Record ProcessDocumentRequest := mkRequest {
  patient_id : str;
  resource_type : str;
  document_content : str
}.

(** The lists of [mock_storage] the Medallion part of the endpoint
    reads and writes. *)
Record Storage := mkStorage {
  patients : list Patient;
  bronze_documents : list (Bronze.t BronzeDocument.t);
  silver_entities : list Entity;
  gold_profiles : list Profile
}.

Definition option_eqb {A} (eqb : A -> A -> bool) (a b : option A) : bool :=
  match a, b with
  | Some x, Some y => eqb x y
  | None, None => true
  | _, _ => false
  end.

Fixpoint list_eqb {A} (eqb : A -> A -> bool) (a b : list A) : bool :=
  match a, b with
  | [], [] => true
  | x :: a', y :: b' => eqb x y && list_eqb eqb a' b'
  | _, _ => false
  end.

(** [d1 == d2] on dicts: the same keys with the same values, in
    whatever order. *)
Definition dict_eqb (d1 d2 : list (str * str)) : bool :=
  forallb (fun k => option_eqb str_eqb (dict_get d1 k) (dict_get d2 k))
    (map fst d1 ++ map fst d2).

(** [a == b] on profiles: the equality the dataclass generates, field
    by field; the attributes the decorator adds are not compared. *)
Definition profile_eqb (a b : Profile) : bool :=
  let x := Gold.obj a in
  let y := Gold.obj b in
  str_eqb (GoldPatientProfile.patient_id x) (GoldPatientProfile.patient_id y)
  && (age_years x =? age_years y)%Z
  && str_eqb (GoldPatientProfile.sex x) (GoldPatientProfile.sex y)
  && list_eqb str_eqb (primary_conditions x) (primary_conditions y)
  && list_eqb str_eqb (comorbidities x) (comorbidities y)
  && list_eqb str_eqb (current_medications x) (current_medications y)
  && list_eqb str_eqb (contraindications x) (contraindications y)
  && str_eqb (geographic_location x) (geographic_location y)
  && dict_eqb (trial_eligibility_factors x) (trial_eligibility_factors y).

(** [l.remove(x)]: without the first element equal to [x]. *)
Fixpoint list_remove {A} (eqb : A -> A -> bool) (x : A) (l : list A)
    : list A :=
  match l with
  | [] => []
  | y :: l' => if eqb y x then l' else y :: list_remove eqb x l'
  end.

(** The update of [mock_storage["gold_profiles"]]: the first profile of
    the patient, if there is one, is removed, and the new profile goes
    to the end. *)
Definition update_gold_profiles (gold_profiles : list Profile)
    (patient_id : str) (gold_profile : Profile) : list Profile :=
  let existing_gold :=
    find (fun g => str_eqb (GoldPatientProfile.patient_id (Gold.obj g))
                     patient_id)
      gold_profiles in
  let gold_profiles :=
    match existing_gold with
    | Some g => list_remove profile_eqb g gold_profiles
    | None => gold_profiles
    end in
  gold_profiles ++ [gold_profile].

(** The Medallion part of [process_document]: the bronze document, the
    extraction, and, for a patient of the store, the aggregation and the
    update of the profiles.  What the endpoint does after it (the
    resource with its summary, and the response) touches none of these
    lists and is left out. *)
Definition process_document (request : ProcessDocumentRequest)
    (mock_storage : Storage)
    : M (Storage * list Entity * option Profile) :=
  let doc_id :=
    py "doc_" ++ patient_id request ++ py "_"
    ++ str_of_nat (length (bronze_documents mock_storage) + 1) in
  bronze_doc <-
    new_bronze_document doc_id (patient_id request) (py "API_Upload")
      (resource_type request) (document_content request) [] None ;;
  let bronze_documents := bronze_documents mock_storage ++ [bronze_doc] in
  silver_entities <- bronze_to_silver_document (Bronze.obj bronze_doc) ;;
  let all_entities := Main.silver_entities mock_storage ++ silver_entities in
  let patient :=
    find (fun p => str_eqb (id p) (patient_id request))
      (patients mock_storage) in
  match patient with
  | Some patient =>
      let demographics :=
        Demographics.mk (Some 52%Z) (Some (py "female"))
          (Some (get (preferred_location
                        (get (preferences patient) (mkPreferences None)))
                   (py "unknown"))) in
      gold_profile <-
        silver_to_gold_patient (patient_id request) silver_entities
          demographics ;;
      ret (mkStorage (patients mock_storage) bronze_documents all_entities
             (update_gold_profiles (gold_profiles mock_storage)
                (patient_id request) gold_profile),
           silver_entities, Some gold_profile)
  | None =>
      ret (mkStorage (patients mock_storage) bronze_documents all_entities
             (gold_profiles mock_storage),
           silver_entities, None)
  end.

End Main.

(* ================================================================= *)
(** ** Notions used in the statements *)

Module Spec.

(** The instance the silver decorator returns for [x] when the clock
    reads [clk k]. *)
Definition stamp (clk : nat -> str) (k : nat) (x : SilverClinicalEntity.t)
    : Entity :=
  mkSilver x (py "silver") (clk k)
    (SilverClinicalEntity._calculate_quality_score x).

(** The instances built one after the other from reading [k] on. *)
Fixpoint stamp_list (clk : nat -> str) (k : nat)
    (l : list SilverClinicalEntity.t) : list Entity :=
  match l with
  | [] => []
  | x :: l' => stamp clk k x :: stamp_list clk (S k) l'
  end.

(** The dataclass instances of the three extraction loops, in the order
    the loops build them. *)
Definition medication_fields (text : str) : list SilverClinicalEntity.t :=
  flat_map (fun pattern =>
              map medication_of_match (finditer pattern (lower text)))
    med_patterns.

Definition diagnosis_fields (text : str) : list SilverClinicalEntity.t :=
  flat_map (fun rule : regex * str * str =>
              map (diagnosis_of_match (snd (fst rule)) (snd rule))
                (finditer (fst (fst rule)) (lower text)))
    diagnosis_patterns.

Definition lab_fields (text : str) : list SilverClinicalEntity.t :=
  flat_map (fun rule : regex * str =>
              map (lab_of_match (snd rule)) (finditer (fst rule) (lower text)))
    lab_patterns.

Definition extract_fields (text : str) : list SilverClinicalEntity.t :=
  medication_fields text ++ diagnosis_fields text ++ lab_fields text.

(** Every pattern of the three rule tables. *)
Definition all_patterns : list regex :=
  med_patterns
  ++ map (fun rule : regex * str * str => fst (fst rule)) diagnosis_patterns
  ++ map (fun rule : regex * str => fst rule) lab_patterns.

(** The number of places of the text, read without regard to case, at
    which a pattern of the rule tables matches. *)
Definition known_term_occurrences (text : str) : nat :=
  list_sum (map (fun pattern => occurrences pattern (lower text)) all_patterns).

(** A string that [lower] leaves as it is. *)
Definition is_lower (s : str) : Prop := lower s = s.

Definition lower_fixed (c : ascii) : Prop := lower_char c = c.

(** The medication names of [med_patterns]. *)
Definition med_name_strings : list string :=
  [ "metformin"; "lisinopril"; "atorvastatin"; "amlodipine";
    "glipizide"; "losartan"; "semaglutide" ]%string.

Definition med_names : list str := map py med_name_strings.

(** What follows does not start with a whitespace character: it is
    empty, or starts with another character. *)
Definition no_space_ahead (post : str) : Prop :=
  match post with
  | [] => True
  | c :: _ => isspace c = false
  end.

(** An entity whose source text is a medication name, a whitespace
    character and whatever the match read after it. *)
Definition name_then_space (e : Entity) : Prop :=
  exists name ws rest,
    In name med_names /\ isspace ws = true
    /\ extracted_from (obj e) = name ++ ws :: rest.

(** An entity with lower-case source text and, unless it is a
    diagnosis, a lower-case value. *)
Definition lower_case_entity (e : Entity) : Prop :=
  is_lower (extracted_from (obj e))
  /\ (entity_type (obj e) = py "diagnosis"
      \/ is_lower (entity_value (obj e))).

(** A document with the given text. *)
Definition document (text : str) : BronzeDocument.t :=
  BronzeDocument.mk (py "doc_001") (py "P001") (py "Epic_EHR")
    (py "clinical_note") text [] None.

Definition with_content (d : BronzeDocument.t) (text : str)
    : BronzeDocument.t :=
  BronzeDocument.mk (BronzeDocument.document_id d)
    (BronzeDocument.patient_id d) (BronzeDocument.source_system d)
    (BronzeDocument.document_type d) text
    (BronzeDocument.file_metadata d)
    (BronzeDocument.ingestion_timestamp d).

(** A clock whose k-th reading ends in the k-th letter after ['a']. *)
Definition sample_clock (k : nat) : str :=
  py "2024-01-01T00:00:00." ++ [ascii_of_nat (97 + k)].

Definition sample_world : World := mkWorld sample_clock 0 [].

Definition scenario_A : str :=
  py "Metformin 1000 mg BID, Lisinopril 10 mg daily. A1C: 8.2%, eGFR: 86, hypertension, type 2 diabetes.".

Definition demographics_B : Demographics.t :=
  Demographics.mk (Some 0%Z) (Some (py "unknown")) (Some (py "unknown")).

(** The truth values of the completeness term, read off the arguments of
    the aggregation. *)
Definition input_flags (entities : list Entity) (d : Demographics.t)
    : list bool :=
  [ existsb (type_is "diagnosis") entities;
    existsb (type_is "medication") entities;
    nonempty (get (Demographics.location d) (py "unknown"));
    negb (get (Demographics.age d) 0 =? 0)%Z;
    nonempty (get (Demographics.sex d) (py "unknown")) ].

Definition count_true (l : list bool) : Z := Z.of_nat (length (filter id l)).

(** A diagnosis instance with the given value. *)
Definition diagnosis_entity (v : str) : Entity :=
  stamp sample_clock 0
    (SilverClinicalEntity.mk (py "diagnosis") v 0.95%float [] None None).

(** The entity types the extraction loops write. *)
Definition extracted_types : list str :=
  [py "medication"; py "diagnosis"; py "lab_value"].

(** The completeness term as the specification words it: a location or
    a sex is known when it is not the default ["unknown"], and an age
    counts when it is positive. *)
Definition known (s : str) : bool :=
  nonempty s && negb (str_eqb s (py "unknown")).

Definition claimed_flags (p : GoldPatientProfile.t) : list bool :=
  [ nonempty (primary_conditions p);
    nonempty (current_medications p);
    known (geographic_location p);
    (0 <? age_years p)%Z;
    known (GoldPatientProfile.sex p) ].

Definition claimed_completeness (p : GoldPatientProfile.t) : float :=
  (PyFloat.of_int (count_true (claimed_flags p)) / PyFloat.of_int 5)%float.

(** A structured lab result with every optional field filled in. *)
Definition full_lab_result : SilverLabResult.t :=
  SilverLabResult.mk (py "hemoglobin_a1c") (inl 8.2%float) (Some (py "%"))
    (Some (py "4.0-5.6")) (py "2024-01-15") (Some (py "H"))
    (Some (py "4548-4")).

(** The lab entity extraction builds from ["A1C: 8.2%"]. *)
Definition a1c_entity : Entity :=
  stamp sample_clock 0
    (SilverClinicalEntity.mk (py "lab_value") (py "hemoglobin_a1c: 8.2")
       0.85%float (py "a1c: 8.2%") (Some (py "4548-4")) None).

(** The eligibility factors of the profile aggregated from the entities
    extracted from a text. *)
Definition factors_of_text (text : str) (w w' : World) (patient_id : str)
    (demo : Demographics.t) : list (str * str) :=
  trial_eligibility_factors
    (Gold.obj (fst (silver_to_gold_patient patient_id
                  (fst (bronze_to_silver_document (document text) w))
                  demo w'))).

(** The demographics of the demonstration run. *)
Definition demographics_A : Demographics.t :=
  Demographics.mk (Some 52%Z) (Some (py "female")) (Some (py "California")).

(** The number of log entries of a stage. *)
Definition entries_of_stage (s : str) (log : list LogEntry) : nat :=
  length (filter (fun e => str_eqb (stage e) s) log).

(** The count the statistics give for a stage, 0 for a stage that is
    not in them. *)
Definition stage_count (d : dict StageStats) (s : str) : Z :=
  match dict_find d s with
  | Some st => count st
  | None => 0%Z
  end.

Definition sum_counts (d : dict StageStats) : Z :=
  fold_right (fun kv acc => count (snd kv) + acc)%Z 0%Z d.

(** The count of a stage in the answer of [get_pipeline_stats]. *)
Definition reported_count (stats : PipelineStats) (s : str) : Z :=
  match stages stats with
  | Some d => stage_count d s
  | None => 0%Z
  end.

Definition all_digits (s : str) : Prop :=
  Forall (fun c => isdigit c = true) s.

Definition all_spaces (s : str) : Prop :=
  Forall (fun c => isspace c = true) s.

(** A numeral: digits, then possibly a point and more digits. *)
Definition numeral (g : str) : Prop :=
  exists ip fr,
    ip <> [] /\ all_digits ip /\ all_digits fr
    /\ (g = ip \/ g = ip ++ "."%char :: fr).

(** A dosage: digits, whitespace if any, then "mg". *)
Definition dosage_text (g : str) : Prop :=
  exists ds ws,
    ds <> [] /\ all_digits ds /\ all_spaces ws /\ g = ds ++ ws ++ py "mg".

(** What a medication entity looks like: the value is a name of the
    rule table, alone or followed by one space and a dosage, and the
    code is the entry of the name in the RxNorm table. *)
Definition medication_shape (x : SilverClinicalEntity.t) : Prop :=
  exists name,
    In name med_names
    /\ normalized_code x = _get_rxnorm_code name
    /\ (entity_value x = name
        \/ exists g, dosage_text g /\ entity_value x = name ++ py " " ++ g).

(** What a lab entity looks like: the value is a lab name of the rule
    table, ": " and a numeral that [float] takes, and the code is the
    entry of the lab name in the LOINC table. *)
Definition lab_shape (x : SilverClinicalEntity.t) : Prop :=
  exists lab_name g,
    In lab_name (map snd lab_patterns)
    /\ numeral g
    /\ PyFloat.of_str g <> None
    /\ entity_value x = lab_name ++ py ": " ++ g
    /\ normalized_code x = _get_loinc_code lab_name.

(** A pattern that matches at every place, if only the empty string. *)
Fixpoint always_matches (r : regex) : bool :=
  match r with
  | Lit l => match l with [] => true | _ :: _ => false end
  | Star _ => true
  | Plus _ => false
  | Opt _ => true
  | Seq r1 r2 => always_matches r1 && always_matches r2
  | Group _ r1 => always_matches r1
  end.

(** The first entity whose value mentions a word. *)
Definition first_mentioning (word : string) (entities : list Entity)
    : option Entity :=
  find (fun e => contains (py word) (entity_value (obj e))) entities.

(** The grade [_assess_cardiac_risk] gives for a number of risk
    factors. *)
Definition risk_level (n : nat) : str :=
  if (3 <=? n)%nat then py "high"
  else if (2 <=? n)%nat then py "moderate"
  else if (1 <=? n)%nat then py "low"
  else py "minimal".

(** The pattern matches somewhere in the text, read without regard to
    case. *)
Definition occurs (pattern : regex) (text : str) : bool :=
  (0 <? occurrences pattern (lower text))%nat.

(** The pattern of the rule for type 2 diabetes. *)
Definition type_2_diabetes_pattern : regex :=
  (Lit (py "type") @@ \s+ @@ Lit (py "2") @@ \s+ @@ Lit (py "diabetes"))%re.

(** The diagnosis values a text gives: for each rule in the order of
    the table, its standard name once per match. *)
Definition diagnoses_by_rule (text : str) : list str :=
  flat_map (fun rule : regex * str * str =>
              repeat (snd rule)
                (length (finditer (fst (fst rule)) (lower text))))
    diagnosis_patterns.

(** The profile aggregated from the entities extracted from a text. *)
Definition profile_of_text (text : str) (w w' : World) (patient_id : str)
    (demo : Demographics.t) : GoldPatientProfile.t :=
  Gold.obj (fst (silver_to_gold_patient patient_id
                   (fst (bronze_to_silver_document (document text) w))
                   demo w')).

(** The grade of an eGFR reading. *)
Definition renal_grade (n : nat) : str :=
  if (90 <=? n)%nat then py "normal"
  else if (60 <=? n)%nat then py "mild_impairment"
  else if (30 <=? n)%nat then py "moderate_impairment"
  else py "severe_impairment".

(** A lab instance with the given value. *)
Definition lab_entity (v : str) : Entity :=
  stamp sample_clock 0
    (SilverClinicalEntity.mk (py "lab_value") v 0.85%float [] None None).

(** The scores of an extracted instance: the confidence of its loop,
    and a quality score of 1 with a code and of the confidence without
    one. *)
Definition extracted_scores (e : Entity) : Prop :=
  In (entity_type (obj e), confidence_score (obj e))
    [ (py "medication", 0.9%float); (py "diagnosis", 0.95%float);
      (py "lab_value", 0.85%float) ]
  /\ _quality_score e
     = (if truthy (normalized_code (obj e)) then 1%float
        else confidence_score (obj e))
  /\ PrimFloat.leb 0.85 (_quality_score e) = true
  /\ PrimFloat.leb (_quality_score e) 1 = true
  /\ temporal_info (obj e) = None
  /\ _layer e = py "silver".

(** The profiles of a patient in a store, in the order of the store. *)
Definition profiles_of (pid : str) (l : list Profile) : list Profile :=
  filter (fun g => str_eqb (GoldPatientProfile.patient_id (Gold.obj g)) pid)
    l.

(** A store with at most one profile per patient. *)
Definition one_profile_per_patient (l : list Profile) : Prop :=
  forall pid, length (profiles_of pid l) <= 1.

(** The storage, the entities and the profile of a call of the
    endpoint. *)
Definition storage_after (request : Main.ProcessDocumentRequest)
    (st : Main.Storage) (w : World) : Main.Storage :=
  fst (fst (fst (Main.process_document request st w))).

Definition entities_of_call (request : Main.ProcessDocumentRequest)
    (st : Main.Storage) (w : World) : list Entity :=
  snd (fst (fst (Main.process_document request st w))).

Definition profile_of_call (request : Main.ProcessDocumentRequest)
    (st : Main.Storage) (w : World) : option Profile :=
  snd (fst (Main.process_document request st w)).

Definition known_patient (request : Main.ProcessDocumentRequest)
    (st : Main.Storage) : bool :=
  existsb (fun p => str_eqb (Main.id p) (Main.patient_id request))
    (Main.patients st).

(** A store with one patient and a profile of that patient from an
    earlier document. *)
Definition sample_request : Main.ProcessDocumentRequest :=
  Main.mkRequest (py "P001") (py "clinical_note") scenario_A.

Definition sample_storage : Main.Storage :=
  Main.mkStorage
    [Main.mkPatient (py "P001")
       (Some (Main.mkPreferences (Some (py "Columbus, OH"))))]
    [] []
    [fst (silver_to_gold_patient (py "P001")
            [diagnosis_entity (py "Obesity")] demographics_A sample_world)].

(** The business value by what it reads of a profile: whether the
    location, the age and the sex count, and how many primary
    conditions, comorbidities and medications there are. *)
Definition business_value_of_counts (loc age sex : bool) (np nc nm : nat)
    : float :=
  let n := length (filter id [negb (np =? 0)%nat; negb (nm =? 0)%nat;
                              loc; age; sex]) in
  (PyFloat.of_int (Z.of_nat n) / PyFloat.of_int 5 * 0.7
   + PyFloat.min (PyFloat.of_int (Z.of_nat np) * 0.2
                  + PyFloat.of_int (Z.of_nat nc) * 0.1
                  + PyFloat.of_int (Z.of_nat nm) * 0.1) 1 * 0.3)%float.

(** The business value for [nd] diagnoses and [nm] medications lies
    between 0 and 1. *)
Definition value_in_range (loc age sex : bool) (nd nm : nat) : bool :=
  let v := business_value_of_counts loc age sex (Nat.min 3 nd) (nd - 3) nm in
  PrimFloat.leb 0 v && PrimFloat.leb v 1.

End Spec.
Import Spec.

(* ================================================================= *)
(** ** Properties of the matcher *)

Close Scope float_scope.
Unset Implicit Arguments.

Section Matcher.

Lemma strip_prefix_Some (p s s' : str) :
  strip_prefix p s = Some s' -> s = p ++ s'.
Proof.
  revert s; induction p as [|x p IH]; intros s H; simpl in H.
  - now inversion H.
  - destruct s as [|y s]; [discriminate|].
    destruct (Ascii.eqb x y) eqn:E; [|discriminate].
    apply Ascii.eqb_eq in E; subst y.
    simpl; f_equal; auto.
Qed.

Lemma strip_prefix_app (p s : str) : strip_prefix p (p ++ s) = Some s.
Proof.
  induction p as [|x p IH]; simpl; [reflexivity|].
  now rewrite Ascii.eqb_refl.
Qed.

Lemma star_class_split (k : cls) : forall s p s',
  In (p, s') (star_class k s) -> s = p ++ s'.
Proof.
  induction s as [|c s IH]; intros p s'; simpl.
  - intros [H|[]]; now inversion H.
  - destruct (cls_mem k c).
    + rewrite in_app_iff, in_map_iff.
      intros [[[p0 s0] [H Hin]]|[H|[]]]; inversion H; subst; simpl.
      * now rewrite (IH _ _ Hin).
      * reflexivity.
    + intros [H|[]]; now inversion H.
Qed.

Lemma plus_class_split (k : cls) (s p s' : str) :
  In (p, s') (plus_class k s) ->
  exists c p', p = c :: p' /\ s = p ++ s' /\ cls_mem k c = true.
Proof.
  destruct s as [|c s]; simpl; [intros []|].
  destruct (cls_mem k c) eqn:E; [|intros []].
  rewrite in_map_iff. intros [[p0 s0] [H Hin]]; inversion H; subst; simpl.
  exists c, p0; repeat split; auto.
  now rewrite (star_class_split _ _ _ _ Hin).
Qed.

(** A match reads a prefix of the input, at least [min_len] long. *)
Lemma run_split (r : regex) : forall s g x,
  In x (run r s g) ->
  s = read x ++ remains x /\ min_len r <= length (read x).
Proof.
  induction r as [l|k|k|r IH|r1 IH1 r2 IH2|n r IH]; intros s g x; simpl.
  - destruct (strip_prefix l s) as [s1|] eqn:E; [|intros []].
    intros [<-|[]]; cbn.
    split; [now apply strip_prefix_Some|lia].
  - rewrite in_map_iff; intros [[p s'] [<- Hin]]; cbn.
    split; [now apply (star_class_split k)|lia].
  - rewrite in_map_iff; intros [[p s'] [<- Hin]]; cbn.
    destruct (plus_class_split _ _ _ _ Hin) as [c [p' [-> [-> _]]]].
    split; [reflexivity|simpl; lia].
  - rewrite in_app_iff; intros [H|[<-|[]]].
    + destruct (IH _ _ _ H) as [-> _]; split; [reflexivity|lia].
    + cbn; split; [reflexivity|lia].
  - rewrite in_flat_map; intros [x1 [H1 H2]].
    apply in_map_iff in H2; destruct H2 as [x2 [<- H2]]; cbn.
    destruct (IH1 _ _ _ H1) as [-> L1].
    destruct (IH2 _ _ _ H2) as [E2 L2].
    split; [now rewrite <- app_assoc, <- E2|].
    rewrite length_app; lia.
  - rewrite in_map_iff; intros [x1 [<- Hin]]; cbn.
    exact (IH _ _ _ Hin).
Qed.

(** Groups hold characters of the input: a property of the characters
    of the input is a property of the characters of every group. *)
Lemma run_groups (P : ascii -> Prop) (r : regex) : forall s g x,
  Forall P s ->
  Forall (fun nv => Forall P (snd nv)) g ->
  In x (run r s g) ->
  Forall (fun nv => Forall P (snd nv)) (groups_of x).
Proof.
  induction r as [l|k|k|r IH|r1 IH1 r2 IH2|n r IH];
    intros s g x Hs Hg; simpl.
  - destruct (strip_prefix l s); [|intros []].
    now intros [<-|[]].
  - rewrite in_map_iff; now intros [y [<- _]].
  - rewrite in_map_iff; now intros [y [<- _]].
  - rewrite in_app_iff; intros [H|[<-|[]]]; [|exact Hg].
    exact (IH _ _ _ Hs Hg H).
  - rewrite in_flat_map; intros [x1 [H1 H2]].
    apply in_map_iff in H2; destruct H2 as [x2 [<- H2]]; cbn.
    destruct (run_split _ _ _ _ H1) as [E1 _].
    rewrite E1 in Hs; apply Forall_app in Hs as Hs'; destruct Hs' as [_ Hs1].
    refine (IH2 _ _ _ Hs1 (IH1 _ _ _ _ Hg H1) H2).
    now rewrite E1.
  - rewrite in_map_iff; intros [x1 [<- Hin]]; cbn.
    constructor; [|exact (IH _ _ _ Hs Hg Hin)].
    simpl. destruct (run_split _ _ _ _ Hin) as [E1 _].
    rewrite E1 in Hs. now apply Forall_app in Hs.
Qed.

Lemma match_at_split (r : regex) (s : str) (m : Match) :
  match_at r s = Some m ->
  s = group0 m ++ after m /\ min_len r <= length (group0 m).
Proof.
  unfold match_at.
  destruct (run r s []) as [|x rest] eqn:E; [discriminate|].
  intros H; inversion H; subst; simpl.
  apply (run_split r s []). rewrite E; now left.
Qed.

Lemma match_at_chars (P : ascii -> Prop) (r : regex) (s : str) (m : Match) :
  Forall P s ->
  match_at r s = Some m ->
  Forall P (group0 m) /\ Forall (fun nv => Forall P (snd nv)) (groups m).
Proof.
  intros Hs H.
  split.
  - destruct (match_at_split _ _ _ H) as [Heq _].
    rewrite Heq in Hs; now apply Forall_app in Hs.
  - unfold match_at in H.
    destruct (run r s []) as [|x rest] eqn:E; [discriminate|].
    assert (Hin : In x (run r s [])) by (rewrite E; now left).
    inversion H; subst; simpl.
    apply (run_groups P r s [] x Hs); [constructor|exact Hin].
Qed.

(** Every match of [finditer] is a match at some place of the text. *)
Lemma finditer_from_In (r : regex) (m : Match) : forall s skip,
  In m (finditer_from r s skip) ->
  exists pre s', s = pre ++ s' /\ match_at r s' = Some m.
Proof.
  induction s as [|c s IH]; intros skip; simpl; [intros []|].
  destruct skip as [|k].
  - destruct (match_at r (c :: s)) as [m0|] eqn:E.
    + intros [<-|H].
      * now exists [], (c :: s).
      * destruct (IH _ H) as [pre [s' [-> H']]].
        now exists (c :: pre), s'.
    + intros H; destruct (IH _ H) as [pre [s' [-> H']]].
      now exists (c :: pre), s'.
  - intros H; destruct (IH _ H) as [pre [s' [-> H']]].
    now exists (c :: pre), s'.
Qed.

Lemma finditer_In (r : regex) (m : Match) (s : str) :
  In m (finditer r s) ->
  exists pre s', s = pre ++ s' /\ match_at r s' = Some m.
Proof. apply finditer_from_In. Qed.

(** [finditer] finds no more matches than there are places with one. *)
Lemma finditer_from_le_occurrences (r : regex) : forall s skip,
  length (finditer_from r s skip) <= occurrences r s.
Proof.
  induction s as [|c s IH]; intros skip; simpl; [lia|].
  destruct skip as [|k].
  - destruct (match_at r (c :: s)); simpl.
    + specialize (IH (length (group0 m) - 1)); lia.
    + exact (IH 0).
  - specialize (IH k); lia.
Qed.

Lemma finditer_chars (P : ascii -> Prop) (r : regex) (s : str) (m : Match) :
  Forall P s ->
  In m (finditer r s) ->
  Forall P (group0 m) /\ Forall (fun nv => Forall P (snd nv)) (groups m).
Proof.
  intros Hs Hin.
  destruct (finditer_In _ _ _ Hin) as [pre [s' [-> H]]].
  apply Forall_app in Hs.
  now apply (match_at_chars P r s').
Qed.

Lemma lookup_chars (P : ascii -> Prop) (g : captures) (n : nat) (v : str) :
  Forall (fun nv => Forall P (snd nv)) g ->
  lookup n g = Some v -> Forall P v.
Proof.
  induction g as [|[k x] g IH]; simpl; [discriminate|].
  intros Hg; inversion Hg; subst.
  destruct (Nat.eqb n k); [intros H; now inversion H; subst|auto].
Qed.

End Matcher.

(* ================================================================= *)
(** ** What the loops of the transformer compute *)

Section Loops.

Lemma stamp_list_app (clk : nat -> str) (a b : list SilverClinicalEntity.t) :
  forall k,
  stamp_list clk k (a ++ b)
  = stamp_list clk k a ++ stamp_list clk (k + length a) b.
Proof.
  induction a as [|x a IH]; intros k; simpl.
  - now rewrite Nat.add_0_r.
  - rewrite IH; do 3 f_equal; lia.
Qed.

Lemma stamp_list_length (clk : nat -> str) (l : list SilverClinicalEntity.t) :
  forall k, length (stamp_list clk k l) = length l.
Proof. induction l; intros k; simpl; auto. Qed.

Lemma stamp_list_obj (clk : nat -> str) (l : list SilverClinicalEntity.t) :
  forall k, map (@obj _) (stamp_list clk k l) = l.
Proof. induction l as [|x l IH]; intros k; simpl; [|rewrite IH]; auto. Qed.

Lemma stamp_list_In (clk : nat -> str) (l : list SilverClinicalEntity.t)
    (e : Entity) :
  forall k, In e (stamp_list clk k l) -> In (obj e) l.
Proof.
  intros k H. rewrite <- (stamp_list_obj clk l k). now apply in_map.
Qed.

(** The inner loop: one instance per match, stamped in turn. *)
Lemma collect_loop (B : Type) (f : B -> SilverClinicalEntity.t)
    (ms : list B) : forall acc w,
  for_ ms (fun m acc =>
             entity <- new_entity (f m) ;; ret (acc ++ [entity])) acc w
  = (acc ++ stamp_list (clock w) (ticks w) (map f ms),
     mkWorld (clock w) (ticks w + length ms) (transformation_log w)).
Proof.
  induction ms as [|m ms IH]; intros acc [clk k lg]; simpl.
  - unfold ret. now rewrite app_nil_r, Nat.add_0_r.
  - unfold bind at 1. simpl. rewrite IH. simpl.
    rewrite <- app_assoc. simpl.
    now rewrite Nat.add_succ_r.
Qed.

(** The outer loop over a rule table. *)
Lemma rule_loop (A B : Type) (ms : A -> list B)
    (f : A -> B -> SilverClinicalEntity.t)
    (body : A -> list Entity -> M (list Entity)) :
  (forall r acc w,
     body r acc w
     = for_ (ms r) (fun m acc =>
                      entity <- new_entity (f r m) ;; ret (acc ++ [entity]))
         acc w) ->
  forall rules acc w,
  for_ rules body acc w
  = (acc ++ stamp_list (clock w) (ticks w)
              (flat_map (fun r => map (f r) (ms r)) rules),
     mkWorld (clock w)
       (ticks w + length (flat_map (fun r => map (f r) (ms r)) rules))
       (transformation_log w)).
Proof.
  intros Hbody.
  induction rules as [|r rules IH]; intros acc [clk k lg]; simpl.
  - unfold ret. now rewrite app_nil_r, Nat.add_0_r.
  - unfold bind at 1. rewrite Hbody, collect_loop. simpl.
    rewrite IH. simpl.
    rewrite stamp_list_app, <- app_assoc, !length_app, !length_map.
    now rewrite Nat.add_assoc.
Qed.

Lemma _extract_medications_spec (text : str) (w : World) :
  _extract_medications text w
  = (stamp_list (clock w) (ticks w) (medication_fields text),
     mkWorld (clock w) (ticks w + length (medication_fields text))
       (transformation_log w)).
Proof.
  unfold _extract_medications, medication_fields.
  now rewrite (rule_loop _ _ (fun p => finditer p (lower text))
                 (fun _ => medication_of_match)).
Qed.

Lemma _extract_diagnoses_spec (text : str) (w : World) :
  _extract_diagnoses text w
  = (stamp_list (clock w) (ticks w) (diagnosis_fields text),
     mkWorld (clock w) (ticks w + length (diagnosis_fields text))
       (transformation_log w)).
Proof.
  unfold _extract_diagnoses, diagnosis_fields.
  rewrite (rule_loop _ _
             (fun rule : regex * str * str =>
                finditer (fst (fst rule)) (lower text))
             (fun rule => diagnosis_of_match (snd (fst rule)) (snd rule))).
  - reflexivity.
  - now intros [[p icd] name] acc w'.
Qed.

Lemma _extract_lab_values_spec (text : str) (w : World) :
  _extract_lab_values text w
  = (stamp_list (clock w) (ticks w) (lab_fields text),
     mkWorld (clock w) (ticks w + length (lab_fields text))
       (transformation_log w)).
Proof.
  unfold _extract_lab_values, lab_fields.
  rewrite (rule_loop _ _
             (fun rule : regex * str => finditer (fst rule) (lower text))
             (fun rule => lab_of_match (snd rule))).
  - reflexivity.
  - now intros [p name] acc w'.
Qed.

(** Extraction: the instances of the three loops, stamped with
    successive readings of the clock, and one entry added to the log. *)
Lemma bronze_to_silver_document_spec (d : BronzeDocument.t) (w : World) :
  let fields := extract_fields (BronzeDocument.raw_content d) in
  bronze_to_silver_document d w
  = (stamp_list (clock w) (ticks w) fields,
     mkWorld (clock w) (S (ticks w + length fields))
       (transformation_log w
        ++ [mkLogEntry (clock w (ticks w + length fields))
              (py "bronze_to_silver") (BronzeDocument.document_id d)
              (MInt (Z.of_nat (length fields)))])).
Proof.
  destruct w as [clk k lg]. unfold bronze_to_silver_document, extract_fields.
  unfold bind at 1. rewrite _extract_medications_spec. simpl.
  unfold bind at 1. rewrite _extract_diagnoses_spec. simpl.
  unfold bind at 1. rewrite _extract_lab_values_spec. simpl.
  unfold bind, _log_transformation, now_isoformat, log_append, ret; simpl.
  rewrite !stamp_list_app, !length_app, !stamp_list_length.
  rewrite <- ?app_assoc, ?Nat.add_assoc. reflexivity.
Qed.

(** Aggregation reads the clock twice, for the stamp of the profile and
    for the log entry, and adds that entry to the log. *)
Lemma silver_to_gold_patient_spec (patient_id : str)
    (entities : list Entity) (d : Demographics.t) (w : World) :
  let diagnoses := values_of_type "diagnosis" entities in
  let profile :=
    GoldPatientProfile.mk patient_id
      (get (Demographics.age d) 0%Z)
      (get (Demographics.sex d) (py "unknown"))
      (firstn 3 diagnoses) (skipn 3 diagnoses)
      (values_of_type "medication" entities)
      (values_of_type "contraindication" entities)
      (get (Demographics.location d) (py "unknown"))
      [ (py "diabetes_controlled", _assess_diabetes_control entities);
        (py "renal_function", _assess_renal_function entities);
        (py "cardiac_risk", _assess_cardiac_risk entities) ] in
  silver_to_gold_patient patient_id entities d w
  = (Gold.mk profile (py "gold") (clock w (ticks w))
       (GoldPatientProfile._calculate_business_value profile),
     mkWorld (clock w) (S (S (ticks w)))
       (transformation_log w
        ++ [mkLogEntry (clock w (S (ticks w))) (py "silver_to_gold")
              patient_id
              (MFloat (GoldPatientProfile._calculate_business_value
                         profile))])).
Proof. reflexivity. Qed.

End Loops.

(* ================================================================= *)
(** ** Aggregation: the split of the diagnoses *)

Section Aggregation.

(** C5: the first three diagnosis values, in the order of the entity
    list, are the primary conditions and the others the comorbidities;
    so there are at most three primary conditions, the two lists put
    together give the diagnoses back, and four diagnoses D1, D2, D3, D4
    give [D1; D2; D3] and [D4]. *)
Theorem C5_primary_conditions_are_first_three
    (patient_id : str) (entities : list Entity) (d : Demographics.t)
    (w : World) (D1 D2 D3 D4 : str) :
  let profile := Gold.obj (fst (silver_to_gold_patient patient_id entities d w)) in
  let diagnoses := values_of_type "diagnosis" entities in
  let four :=
    Gold.obj (fst (silver_to_gold_patient patient_id
                 (map diagnosis_entity [D1; D2; D3; D4]) d w)) in
  primary_conditions profile = firstn 3 diagnoses
  /\ comorbidities profile = skipn 3 diagnoses
  /\ length (primary_conditions profile) <= 3
  /\ primary_conditions profile ++ comorbidities profile = diagnoses
  /\ primary_conditions four = [D1; D2; D3]
  /\ comorbidities four = [D4].
Proof.
  rewrite !silver_to_gold_patient_spec.
  cbn [fst Gold.obj primary_conditions comorbidities].
  repeat split.
  - apply firstn_le_length.
  - apply firstn_skipn.
Qed.

End Aggregation.

(* ================================================================= *)
(** ** Extraction: how many entities, and of which types *)

Section Extraction.

Lemma list_sum_le (A : Type) (f g : A -> nat) (l : list A) :
  (forall x, In x l -> f x <= g x) ->
  list_sum (map f l) <= list_sum (map g l).
Proof.
  induction l as [|x l IH]; intros H; simpl; [lia|].
  assert (f x <= g x) by (apply H; now left).
  assert (list_sum (map f l) <= list_sum (map g l))
    by (apply IH; intros y Hy; apply H; now right).
  lia.
Qed.

Lemma length_flat_map_sum (A B : Type) (f : A -> list B) (l : list A) :
  length (flat_map f l) = list_sum (map (fun x => length (f x)) l).
Proof.
  induction l as [|x l IH]; simpl; [reflexivity|].
  now rewrite length_app, IH.
Qed.

(** One instance per match of [finditer], rule table after rule table. *)
Lemma length_extract_fields (text : str) :
  length (extract_fields text)
  = list_sum (map (fun p => length (finditer p (lower text))) all_patterns).
Proof.
  unfold extract_fields, medication_fields, diagnosis_fields, lab_fields,
    all_patterns.
  rewrite !length_app, !length_flat_map_sum, !map_app, !map_map.
  rewrite !list_sum_app.
  repeat apply (f_equal2 Nat.add); try reflexivity; apply length_map.
Qed.

(** No pattern of the rule tables matches the empty string. *)
Lemma matches_are_not_empty (p : regex) (s : str) (m : Match) :
  In p (number_group :: integer_group :: all_patterns) ->
  match_at p s = Some m ->
  0 < length (group0 m).
Proof.
  intros Hp Hm. apply match_at_split in Hm. destruct Hm as [_ Hlen].
  assert (Hmin : Forall (fun q => 0 < min_len q)
                   (number_group :: integer_group :: all_patterns))
    by (repeat constructor).
  rewrite Forall_forall in Hmin. specialize (Hmin p Hp). lia.
Qed.

Lemma extract_fields_types (text : str) :
  Forall (fun x => In (entity_type x) extracted_types) (extract_fields text).
Proof.
  unfold extract_fields, medication_fields, diagnosis_fields, lab_fields.
  rewrite !Forall_app; repeat split; apply Forall_forall; intros x Hx;
    apply in_flat_map in Hx; destruct Hx as [r [_ Hx]];
    apply in_map_iff in Hx; destruct Hx as [m [<- _]]; simpl; auto.
Qed.

(** C7: extraction returns for every text, with no more entities than
    there are places of the text at which a pattern of the rule tables
    matches; where no pattern matches, and for the empty text, it
    returns the empty list. *)
Theorem C7_extraction_never_exceeds_occurrences
    (d : BronzeDocument.t) (w : World) :
  exists entities w',
    bronze_to_silver_document d w = (entities, w')
    /\ length entities <= known_term_occurrences (BronzeDocument.raw_content d)
    /\ (known_term_occurrences (BronzeDocument.raw_content d) = 0 ->
        entities = [])
    /\ fst (bronze_to_silver_document (with_content d []) w) = [].
Proof.
  rewrite !bronze_to_silver_document_spec.
  eexists; eexists; split; [reflexivity|].
  rewrite stamp_list_length.
  assert (Hle : length (extract_fields (BronzeDocument.raw_content d))
                <= known_term_occurrences (BronzeDocument.raw_content d)).
  { rewrite length_extract_fields. unfold known_term_occurrences.
    apply list_sum_le; intros p _. apply finditer_from_le_occurrences. }
  repeat split.
  - exact Hle.
  - intros H0. rewrite H0 in Hle.
    destruct (extract_fields (BronzeDocument.raw_content d));
      [reflexivity|simpl in Hle; lia].
Qed.

(** C7 at a text without any known term. *)
Lemma C7_witness :
  exists entities w',
    bronze_to_silver_document
      (document (py "Patient feels well. No complaints.")) sample_world
    = (entities, w')
    /\ entities = [].
Proof.
  destruct (C7_extraction_never_exceeds_occurrences
              (document (py "Patient feels well. No complaints."))
              sample_world)
    as [entities [w' [H [_ [H0 _]]]]].
  exists entities, w'; split; [exact H|].
  apply H0. vm_compute. reflexivity.
Defined.

(** C8: every extracted entity is a medication, a diagnosis or a lab
    value, never a contraindication; so a profile aggregated from
    extracted entities has no contraindications. *)
Theorem C8_extraction_emits_no_contraindication
    (d : BronzeDocument.t) (w : World) (patient_id : str)
    (demo : Demographics.t) (w' : World) :
  let entities := fst (bronze_to_silver_document d w) in
  Forall (fun e => In (entity_type (obj e)) extracted_types
                   /\ entity_type (obj e) <> py "contraindication") entities
  /\ contraindications
       (Gold.obj (fst (silver_to_gold_patient patient_id entities demo w'))) = [].
Proof.
  cbv zeta.
  rewrite bronze_to_silver_document_spec, silver_to_gold_patient_spec.
  cbn [fst Gold.obj contraindications].
  set (es := stamp_list _ _ _).
  assert (Hty : Forall (fun e => In (entity_type (obj e)) extracted_types) es).
  { apply Forall_forall; intros e He. apply stamp_list_In in He.
    pose proof (extract_fields_types (BronzeDocument.raw_content d)) as H.
    rewrite Forall_forall in H. now apply H. }
  split.
  - apply Forall_forall; intros e He. rewrite Forall_forall in Hty.
    specialize (Hty e He). split; [exact Hty|].
    intros E; rewrite E in Hty; simpl in Hty.
    destruct Hty as [H|[H|[H|[]]]]; discriminate H.
  - unfold values_of_type.
    replace (filter (type_is "contraindication") es) with (@nil Entity);
      [reflexivity|].
    symmetry. clear -Hty. induction Hty as [|e l He _ IH]; simpl; [reflexivity|].
    rewrite IH. unfold type_is.
    destruct He as [<-|[<-|[<-|[]]]]; reflexivity.
Qed.

End Extraction.

(* ================================================================= *)
(** ** Scores *)

Section Scores.

Open Scope float_scope.

(** The lab-result score by the optional fields present: it is above 1
    exactly when all four are. *)
Lemma lab_result_score_range (self : SilverLabResult.t) :
  let score := SilverLabResult._calculate_quality_score self in
  (0.6 <=? score) = true
  /\ (score <=? 1.1) = true
  /\ (1 <? score)
     = truthy (SilverLabResult.unit self)
       && truthy (SilverLabResult.reference_range self)
       && truthy (SilverLabResult.abnormal_flag self)
       && truthy (SilverLabResult.loinc_code self).
Proof.
  unfold SilverLabResult._calculate_quality_score.
  destruct (truthy (SilverLabResult.unit self)),
    (truthy (SilverLabResult.reference_range self)),
    (truthy (SilverLabResult.abnormal_flag self)),
    (truthy (SilverLabResult.loinc_code self));
    vm_compute; auto.
Qed.

(** The score of the generic entity is capped, as its [min] says. *)
Lemma entity_score_capped (self : SilverClinicalEntity.t) :
  (1 <? SilverClinicalEntity._calculate_quality_score self) = false.
Proof.
  unfold SilverClinicalEntity._calculate_quality_score, PyFloat.min.
  match goal with |- context [if (1 <? ?x) then _ else _] =>
    destruct (1 <? x) eqn:E end; [reflexivity|exact E].
Qed.

(** C3 at the failing input: a lab result with unit, reference range,
    abnormal flag and coding scores 0.6 + 0.1 + 0.1 + 0.1 + 0.2, which
    is above 1, and the decorator stores that score. *)
Theorem C3_lab_result_score_exceeds_one :
  SilverLabResult._calculate_quality_score full_lab_result
  = 1.0999999999999999
  /\ (SilverLabResult._calculate_quality_score full_lab_result <=? 1) = false
  /\ (_quality_score
        (fst (silver_layer SilverLabResult._calculate_quality_score
                full_lab_result sample_world)) <=? 1) = false.
Proof. vm_compute. auto. Qed.

Lemma nonempty_firstn (A : Type) (l : list A) :
  nonempty (firstn 3 l) = nonempty l.
Proof. now destruct l. Qed.

Lemma nonempty_values_of_type (ty : string) (entities : list Entity) :
  nonempty (values_of_type ty entities) = existsb (type_is ty) entities.
Proof.
  unfold values_of_type.
  induction entities as [|e l IH]; simpl; [reflexivity|].
  destruct (type_is ty e); simpl; auto.
Qed.

Lemma count_true_bounds (l : list bool) :
  (0 <= count_true l <= Z.of_nat (length l))%Z.
Proof.
  unfold count_true. pose proof (filter_length_le id l). lia.
Qed.

(** C4, as the code has it: the completeness term counts, out of five,
    a diagnosis entity being there, a medication entity being there, a
    non-empty location string, an age other than 0 and a non-empty sex
    string; the business value is 0.7 of it plus 0.3 of the richness.
    With no entity and the demographics 0, "unknown", "unknown" the two
    default strings count: completeness is 2/5 and the business value
    0.28 (the richness is 0). *)
Theorem C4_completeness_counts_truthy_fields
    (patient_id : str) (entities : list Entity) (d : Demographics.t)
    (w : World) :
  let p := fst (silver_to_gold_patient patient_id entities d w) in
  let pB := fst (silver_to_gold_patient patient_id [] demographics_B w) in
  completeness (Gold.obj p)
  = PyFloat.of_int (count_true (input_flags entities d)) / PyFloat.of_int 5
  /\ (0 <= count_true (input_flags entities d) <= 5)%Z
  /\ Gold._business_value p
     = completeness (Gold.obj p) * 0.7 + richness (Gold.obj p) * 0.3
  /\ completeness (Gold.obj pB) = PyFloat.of_int 2 / PyFloat.of_int 5
  /\ completeness (Gold.obj pB) = 0.4
  /\ richness (Gold.obj pB) = 0
  /\ Gold._business_value pB = 0.27999999999999997.
Proof.
  rewrite !silver_to_gold_patient_spec.
  cbn [fst Gold.obj Gold._business_value].
  repeat split.
  - unfold completeness, completeness_flags, count_true, input_flags.
    cbn [primary_conditions current_medications geographic_location
         age_years GoldPatientProfile.sex].
    now rewrite nonempty_firstn, !nonempty_values_of_type.
  - apply count_true_bounds.
  - apply (count_true_bounds (input_flags entities d)).
Qed.

(** C4 as stated fails at its own example: with no entity and the
    demographics 0, "unknown", "unknown" the completeness term is not the
    0/5 the wording gives, and the business value is not 0.3 times the
    richness. *)
Lemma C4_counterexample :
  completeness
    (Gold.obj (fst (silver_to_gold_patient (py "P001") [] demographics_B
                  sample_world)))
  <> claimed_completeness
       (Gold.obj (fst (silver_to_gold_patient (py "P001") [] demographics_B
                     sample_world)))
  /\ claimed_completeness
       (Gold.obj (fst (silver_to_gold_patient (py "P001") [] demographics_B
                     sample_world)))
     = PyFloat.of_int 0 / PyFloat.of_int 5
  /\ Gold._business_value
       (fst (silver_to_gold_patient (py "P001") [] demographics_B
               sample_world))
     <> 0.3 * richness
              (Gold.obj (fst (silver_to_gold_patient (py "P001") []
                            demographics_B sample_world))).
Proof.
  repeat split.
  - intros H. apply (f_equal (fun x => x =? 0)) in H.
    vm_compute in H. discriminate H.
  - intros H. apply (f_equal (fun x => x =? 0)) in H.
    vm_compute in H. discriminate H.
Qed.

End Scores.

(* ================================================================= *)
(** ** Aggregation and its effects *)

Section Repeatability.

(** C6, as the code has it: two aggregations of the same patient id,
    entities and demographics give profiles with the same dataclass
    fields, the same layer tag and the same business value; the stamp
    [Gold._enriched_at] of each is the reading of the clock at its call, and
    each call adds one entry to the transformation log. *)
Theorem C6_aggregate_same_up_to_stamp
    (patient_id : str) (entities : list Entity) (d : Demographics.t)
    (w1 w2 : World) :
  let r1 := silver_to_gold_patient patient_id entities d w1 in
  let r2 := silver_to_gold_patient patient_id entities d w2 in
  Gold.obj (fst r1) = Gold.obj (fst r2)
  /\ Gold._layer (fst r1) = Gold._layer (fst r2)
  /\ Gold._business_value (fst r1) = Gold._business_value (fst r2)
  /\ Gold._enriched_at (fst r1) = clock w1 (ticks w1)
  /\ Gold._enriched_at (fst r2) = clock w2 (ticks w2)
  /\ length (transformation_log (snd r1))
     = S (length (transformation_log w1))
  /\ ticks (snd r1) = S (S (ticks w1)).
Proof.
  rewrite !silver_to_gold_patient_spec.
  cbn [fst snd Gold.obj Gold._layer Gold._business_value Gold._enriched_at
       transformation_log ticks].
  repeat split.
  rewrite length_app; simpl; lia.
Qed.

(** C6 as stated fails: the second of two calls with the same arguments
    returns a profile that differs from the first in its stamp, and the
    first call has left an entry in the log. *)
Lemma C6_counterexample :
  fst (silver_to_gold_patient (py "P001") [] demographics_B sample_world)
  <> fst (silver_to_gold_patient (py "P001") [] demographics_B
            (snd (silver_to_gold_patient (py "P001") [] demographics_B
                    sample_world)))
  /\ transformation_log
       (snd (silver_to_gold_patient (py "P001") [] demographics_B
               sample_world))
     <> transformation_log sample_world.
Proof.
  split; intros H.
  - apply (f_equal (@Gold._enriched_at _)) in H. vm_compute in H.
    inversion H.
  - apply (f_equal (@length _)) in H. vm_compute in H. discriminate H.
Qed.

End Repeatability.

(* ================================================================= *)
(** ** The clinical assessments *)

Section Assessments.

(** The number [_assess_diabetes_control] reads from an entity value
    that starts with the lab name is the 1 of "a1c", whatever follows:
    the assessment of such an entity is always "well_controlled". *)
Lemma _assess_diabetes_control_reads_label
    (before after : list Entity) (e : Entity) (rest : str) :
  Forall (fun x => contains (py "hemoglobin_a1c") (entity_value (obj x))
                   = false) before ->
  entity_value (obj e) = py "hemoglobin_a1c" ++ rest ->
  _assess_diabetes_control (before ++ e :: after) = py "well_controlled".
Proof.
  intros Hb He. unfold _assess_diabetes_control.
  rewrite filter_app.
  replace (filter _ before) with (@nil Entity).
  - cbn [app filter]. rewrite He.
    replace (contains (py "hemoglobin_a1c") (py "hemoglobin_a1c" ++ rest))
      with true by reflexivity.
    cbv iota. rewrite He. vm_compute. reflexivity.
  - symmetry. induction Hb as [|x l Hx _ IH]; cbn [filter]; [reflexivity|].
    now rewrite Hx.
Qed.

(** Without an entity that mentions the lab name the assessment is
    "unknown". *)
Lemma _assess_diabetes_control_absent (entities : list Entity) :
  Forall (fun x => contains (py "hemoglobin_a1c") (entity_value (obj x))
                   = false) entities ->
  _assess_diabetes_control entities = py "unknown".
Proof.
  intros H. unfold _assess_diabetes_control.
  replace (filter _ entities) with (@nil Entity); [reflexivity|].
  symmetry. induction H as [|x l Hx _ IH]; cbn [filter]; [reflexivity|].
  now rewrite Hx.
Qed.

(** C1 at the failing input: for the lab entity of an A1C of 8.2 the
    assessment is "well_controlled"; the number it compares is 1, read
    from the name of the lab, not the 8.2 after it.  The same holds for
    the factor of the profile aggregated from the text "A1C: 8.2%". *)
Theorem C1_a1c_reading_is_the_label_digit :
  _assess_diabetes_control [a1c_entity] = py "well_controlled"
  /\ option_map (fun m => group m 1)
       (search number_group (entity_value (obj a1c_entity)))
     = Some (Some (py "1"))
  /\ dict_get
       (factors_of_text (py "A1C: 8.2%") sample_world sample_world
          (py "P001") demographics_B)
       (py "diabetes_controlled")
     = Some (py "well_controlled").
Proof. vm_compute. auto. Qed.

Lemma scenario_A_fields :
  map (fun x => (entity_type x, entity_value x)) (extract_fields scenario_A)
  = [ (py "medication", py "metformin 1000 mg");
      (py "medication", py "lisinopril 10 mg");
      (py "diagnosis", py "Type 2 Diabetes");
      (py "diagnosis", py "Essential Hypertension");
      (py "lab_value", py "hemoglobin_a1c: 8.2");
      (py "lab_value", py "egfr: 86") ].
Proof. vm_compute. reflexivity. Qed.

Ltac first_of_filter H :=
  match type of H with
  | map _ (filter ?f ?a) = map _ (filter ?g ?b) =>
      destruct (filter f a), (filter g b);
      simpl in H; try discriminate H; [reflexivity|]
  end.

(** The assessments read the dataclass fields only. *)
Lemma assessments_of_fields (es es' : list Entity) :
  map (@obj _) es = map (@obj _) es' ->
  _assess_diabetes_control es = _assess_diabetes_control es'
  /\ _assess_renal_function es = _assess_renal_function es'
  /\ _assess_cardiac_risk es = _assess_cardiac_risk es'.
Proof.
  intros H.
  assert (Hf : forall (p : SilverClinicalEntity.t -> bool),
             map (@obj _) (filter (fun e => p (obj e)) es)
             = map (@obj _) (filter (fun e => p (obj e)) es')).
  { intros p. revert es' H.
    induction es as [|e l IH]; intros [|e' l'] H; simpl in *;
      try discriminate; [reflexivity|].
    inversion H as [[H1 H2]]. rewrite H1.
    destruct (p (obj e')); simpl; [rewrite H1|]; now rewrite (IH l'). }
  assert (Hx : forall (p q : SilverClinicalEntity.t -> bool),
             existsb (fun e => q (obj e)) (filter (fun e => p (obj e)) es)
             = existsb (fun e => q (obj e))
                 (filter (fun e => p (obj e)) es')).
  { intros p q. specialize (Hf p).
    revert Hf. generalize (filter (fun e => p (obj e)) es),
      (filter (fun e => p (obj e)) es').
    induction l as [|e l IH]; intros [|e' l'] H'; simpl in *;
      try discriminate; [reflexivity|].
    inversion H' as [[H1 H2]]. now rewrite H1, (IH l'). }
  repeat split.
  - unfold _assess_diabetes_control.
    pose proof (Hf (fun x => contains (py "hemoglobin_a1c") (entity_value x)))
      as H1.
    cbv beta in H1. first_of_filter H1.
    injection H1 as Ha _. now rewrite Ha.
  - unfold _assess_renal_function.
    pose proof (Hf (fun x => contains (py "egfr") (entity_value x))) as H1.
    cbv beta in H1. first_of_filter H1.
    injection H1 as Ha _. now rewrite Ha.
  - unfold _assess_cardiac_risk, any_diagnosis_mentions, type_is.
    now rewrite
      !(Hx (fun x => str_eqb (entity_type x) (py "diagnosis"))
           (fun x => contains (py _) (lower (entity_value x)))).
Qed.

(** C2, as the code has it: for the text of scenario A, extraction and
    then aggregation give renal_function "mild_impairment" (an eGFR of 86
    is below the 90 of "normal") and cardiac_risk "moderate" (two of the
    three risk diagnoses), whatever the clock, the patient id and the
    demographics. *)
Theorem C2_scenario_A_factors
    (w w' : World) (patient_id : str) (demo : Demographics.t) :
  let factors := factors_of_text scenario_A w w' patient_id demo in
  dict_get factors (py "renal_function") = Some (py "mild_impairment")
  /\ dict_get factors (py "cardiac_risk") = Some (py "moderate").
Proof.
  unfold factors_of_text.
  rewrite bronze_to_silver_document_spec, silver_to_gold_patient_spec.
  cbn [fst Gold.obj trial_eligibility_factors BronzeDocument.raw_content document].
  destruct (assessments_of_fields
              (stamp_list (clock w) (ticks w) (extract_fields scenario_A))
              (stamp_list sample_clock 0 (extract_fields scenario_A)))
    as [Hd [Hr Hc]]; [now rewrite !stamp_list_obj|].
  rewrite Hd, Hr, Hc. vm_compute. auto.
Qed.

(** The diabetes factor of scenario A comes from the digit of the lab
    name (see [_assess_diabetes_control_reads_label]). *)
Lemma scenario_A_diabetes_factor :
  dict_get
    (factors_of_text scenario_A sample_world sample_world (py "P001")
       demographics_A)
    (py "diabetes_controlled") = Some (py "well_controlled").
Proof. vm_compute. reflexivity. Qed.

(** C2 as stated fails: the three factors of scenario A are not
    "moderately_controlled", "normal" and "moderate"; the renal function
    is not "normal". *)
Lemma C2_counterexample :
  ~ (dict_get
       (factors_of_text scenario_A sample_world sample_world (py "P001")
          demographics_A)
       (py "diabetes_controlled") = Some (py "moderately_controlled")
     /\ dict_get
          (factors_of_text scenario_A sample_world sample_world (py "P001")
             demographics_A)
          (py "renal_function") = Some (py "normal")
     /\ dict_get
          (factors_of_text scenario_A sample_world sample_world (py "P001")
             demographics_A)
          (py "cardiac_risk") = Some (py "moderate")).
Proof.
  intros [_ [H _]]. vm_compute in H. discriminate H.
Qed.

End Assessments.

(* ================================================================= *)
(** ** Letter case *)

Section LetterCase.

Lemma lower_char_idem (c : ascii) : lower_char (lower_char c) = lower_char c.
Proof.
  destruct c as [[] [] [] [] [] [] [] []]; reflexivity.
Qed.

Lemma lower_idem (s : str) : lower (lower s) = lower s.
Proof.
  unfold lower. rewrite map_map. apply map_ext. apply lower_char_idem.
Qed.

Lemma lower_chars_fixed (s : str) : Forall lower_fixed (lower s).
Proof.
  unfold lower. apply Forall_forall. intros c Hc.
  apply in_map_iff in Hc. destruct Hc as [c0 [<- _]].
  apply lower_char_idem.
Qed.

Lemma is_lower_Forall (s : str) : Forall lower_fixed s -> is_lower s.
Proof.
  unfold is_lower, lower. induction 1 as [|c l Hc _ IH]; simpl;
    [reflexivity|]. now rewrite Hc, IH.
Qed.

Lemma lstrip_chars (P : ascii -> Prop) (s : str) :
  Forall P s -> Forall P (lstrip s).
Proof.
  induction 1 as [|c l Hc Hl IH]; simpl; [constructor|].
  destruct (isspace c); [exact IH|now constructor].
Qed.

Lemma strip_chars (P : ascii -> Prop) (s : str) :
  Forall P s -> Forall P (strip s).
Proof.
  intros H. unfold strip, rstrip.
  apply Forall_rev, lstrip_chars, Forall_rev, lstrip_chars, H.
Qed.

Lemma group_str_chars (P : ascii -> Prop) (m : Match) (n : nat) :
  Forall (fun nv => Forall P (snd nv)) (groups m) ->
  Forall P (group_str m n).
Proof.
  intros H. unfold group_str, group.
  destruct (lookup n (groups m)) eqn:E; simpl; [|constructor].
  exact (lookup_chars P _ _ _ H E).
Qed.

Lemma lab_names_lower :
  Forall (fun rule : regex * str => Forall lower_fixed (snd rule)) lab_patterns.
Proof. repeat constructor. Qed.

(** What extraction writes from a lower-case text is lower-case, the
    standard names of the diagnoses apart. *)
Lemma extract_fields_lower (text : str) :
  Forall (fun x => Forall lower_fixed (extracted_from x)
                   /\ (entity_type x = py "diagnosis"
                       \/ Forall lower_fixed (entity_value x)))
    (extract_fields text).
Proof.
  pose proof (lower_chars_fixed text) as Ht.
  unfold extract_fields, medication_fields, diagnosis_fields, lab_fields.
  rewrite !Forall_app; repeat split; apply Forall_forall; intros x Hx;
    apply in_flat_map in Hx; destruct Hx as [r [Hr Hx]];
    apply in_map_iff in Hx; destruct Hx as [m [<- Hm]];
    destruct (finditer_chars lower_fixed _ _ _ Ht Hm) as [H0 Hg];
    (split; [exact H0|]).
  - right. cbn [entity_value medication_of_match].
    destruct (truthy (group m 2)) eqn:E.
    + apply strip_chars. rewrite !Forall_app; repeat split.
      * now apply group_str_chars.
      * repeat constructor.
      * unfold group in *. destruct (lookup 2 (groups m)) eqn:E2;
          simpl; [|constructor]. exact (lookup_chars _ _ _ _ Hg E2).
    + now apply group_str_chars.
  - now left.
  - right. cbn [entity_value lab_of_match].
    rewrite !Forall_app; repeat split.
    + pose proof lab_names_lower as Hn. rewrite Forall_forall in Hn.
      exact (Hn r Hr).
    + repeat constructor.
    + now apply group_str_chars.
Qed.

Lemma extract_fields_lower_text (text : str) :
  extract_fields (lower text) = extract_fields text.
Proof.
  unfold extract_fields, medication_fields, diagnosis_fields, lab_fields.
  now rewrite lower_idem.
Qed.

(** C9: extraction reads the text through [lower] only: it returns for a
    text what it returns for the lower-cased text, so two texts that
    differ in letter case only give the same entities; the source text
    of every entity is lower-case, and so is the value of every
    medication and lab entity. *)
Theorem C9_extraction_ignores_letter_case
    (d : BronzeDocument.t) (text text' : str) (w : World) :
  lower text = lower text' ->
  bronze_to_silver_document (with_content d text) w
  = bronze_to_silver_document (with_content d (lower text)) w
  /\ bronze_to_silver_document (with_content d text) w
     = bronze_to_silver_document (with_content d text') w
  /\ Forall lower_case_entity
       (fst (bronze_to_silver_document (with_content d text) w)).
Proof.
  intros Hcase.
  rewrite !bronze_to_silver_document_spec.
  cbn [with_content BronzeDocument.raw_content BronzeDocument.document_id fst].
  rewrite extract_fields_lower_text.
  rewrite <- (extract_fields_lower_text text'), <- Hcase,
    extract_fields_lower_text.
  repeat split.
  apply Forall_forall; intros e He. apply stamp_list_In in He.
  pose proof (extract_fields_lower text) as H.
  rewrite Forall_forall in H. destruct (H _ He) as [H1 H2].
  split; [now apply is_lower_Forall|].
  destruct H2 as [H2|H2]; [now left|right; now apply is_lower_Forall].
Qed.

(** C9 at two spellings of one prescription. *)
Lemma C9_witness :
  bronze_to_silver_document (document (py "Metformin 500 MG daily"))
    sample_world
  = bronze_to_silver_document (document (py "METFORMIN 500 mg DAILY"))
      sample_world.
Proof.
  apply (C9_extraction_ignores_letter_case
           (document []) (py "Metformin 500 MG daily")
           (py "METFORMIN 500 mg DAILY") sample_world).
  reflexivity.
Defined.

End LetterCase.

(* ================================================================= *)
(** ** The whitespace after a medication name *)

Section MedicationPattern.

Lemma run_Seq_In (r1 r2 : regex) (s : str) (g : captures) (x : result) :
  In x (run (Seq r1 r2) s g) ->
  exists x1 x2,
    In x1 (run r1 s g)
    /\ In x2 (run r2 (remains x1) (groups_of x1))
    /\ read x = read x1 ++ read x2.
Proof.
  simpl. rewrite in_flat_map. intros [x1 [H1 H2]].
  apply in_map_iff in H2. destruct H2 as [x2 [<- H2]].
  now exists x1, x2.
Qed.

Lemma med_patterns_names : med_patterns = map med_pattern med_name_strings.
Proof. reflexivity. Qed.

(** A match of a medication pattern reads the name, then a whitespace
    character. *)
Lemma med_pattern_match (name : string) (s : str) (m : Match) :
  match_at (med_pattern name) s = Some m ->
  exists ws rest, isspace ws = true /\ group0 m = py name ++ ws :: rest.
Proof.
  unfold match_at.
  destruct (run (med_pattern name) s []) as [|x xs] eqn:E; [discriminate|].
  intros H; inversion H; subst; clear H; cbn [group0].
  assert (Hin : In x (run (med_pattern name) s [])) by (rewrite E; now left).
  unfold med_pattern in Hin.
  apply run_Seq_In in Hin. destruct Hin as [x1 [x2 [H1 [H2 ->]]]].
  apply run_Seq_In in H2. destruct H2 as [y1 [y2 [Hy1 [_ ->]]]].
  simpl in H1. destruct (strip_prefix (py name) s); [|destruct H1].
  destruct H1 as [<-|[]]. cbn [read fst] in *.
  simpl in Hy1. apply in_map_iff in Hy1. destruct Hy1 as [[p s'] [<- Hp]].
  destruct (plus_class_split _ _ _ _ Hp) as [c [p' [-> [_ Hc]]]].
  exists c, (p' ++ read y2). split; [exact Hc|reflexivity].
Qed.

(** Where the name is not followed by whitespace, the pattern does not
    match. *)
Lemma med_pattern_no_match (name : string) (post : str) :
  no_space_ahead post ->
  match_at (med_pattern name) (py name ++ post) = None.
Proof.
  intros H. unfold match_at, med_pattern. cbn [run].
  rewrite strip_prefix_app. cbn [map flat_map read remains groups_of fst snd].
  destruct post as [|c post]; cbn in *; [reflexivity|].
  now rewrite H.
Qed.

(** C10: every medication pattern wants whitespace right after the
    name.  At a name followed by the end of the text or by a character
    that is not whitespace the pattern of that name does not match;
    every medication entity has as source text a name, a whitespace
    character and what follows; and "metformin." and a text that ends in
    "metformin" give no medication entity. *)
Theorem C10_medication_name_needs_whitespace
    (name : string) (post text : str) (w : World) :
  In name med_name_strings ->
  no_space_ahead post ->
  In (med_pattern name) med_patterns
  /\ match_at (med_pattern name) (py name ++ post) = None
  /\ Forall name_then_space (fst (_extract_medications text w))
  /\ fst (_extract_medications (py "metformin.") w) = []
  /\ fst (_extract_medications (py "Patient stopped taking Metformin") w) = [].
Proof.
  intros Hname Hpost.
  rewrite !_extract_medications_spec. cbn [fst].
  repeat split.
  - rewrite med_patterns_names. now apply in_map.
  - now apply med_pattern_no_match.
  - apply Forall_forall; intros e He. apply stamp_list_In in He.
    unfold medication_fields in He. rewrite med_patterns_names in He.
    apply in_flat_map in He. destruct He as [p [Hp He]].
    apply in_map_iff in Hp. destruct Hp as [n [<- Hn]].
    apply in_map_iff in He. destruct He as [m [Hm Hin]].
    apply finditer_In in Hin. destruct Hin as [pre [s' [_ Hmatch]]].
    apply med_pattern_match in Hmatch.
    destruct Hmatch as [ws [rest [Hws Hg]]].
    exists (py n), ws, rest. repeat split.
    + unfold med_names. now apply in_map.
    + exact Hws.
    + rewrite <- Hm. exact Hg.
Qed.

(** C10 at "metformin" followed by a full stop. *)
Lemma C10_witness :
  match_at (med_pattern "metformin") (py "metformin" ++ py ".") = None.
Proof.
  apply (C10_medication_name_needs_whitespace "metformin" (py ".") []
           sample_world).
  - simpl; auto.
  - reflexivity.
Defined.

End MedicationPattern.

(* ================================================================= *)
(** ** The statistics of the log *)

Section Statistics.

Lemma str_eqb_eq (a b : str) : str_eqb a b = true <-> a = b.
Proof.
  revert b; induction a as [|x a IH]; intros [|y b]; simpl;
    try (split; [discriminate|discriminate]); [now split|].
  rewrite andb_true_iff, Ascii.eqb_eq, IH.
  split; [intros [-> ->]; reflexivity|intros H; now inversion H].
Qed.

Lemma str_eqb_refl (a : str) : str_eqb a a = true.
Proof. now apply str_eqb_eq. Qed.

Lemma str_eqb_neq (a b : str) : str_eqb a b = false <-> a <> b.
Proof.
  rewrite <- str_eqb_eq. destruct (str_eqb a b); split; congruence.
Qed.

Lemma dict_find_set_same (V : Type) (d : dict V) (k : str) (v : V) :
  dict_find (dict_set d k v) k = Some v.
Proof.
  induction d as [|[k0 x] d IH]; simpl.
  - now rewrite str_eqb_refl.
  - destruct (str_eqb k0 k) eqn:E; simpl; rewrite E; auto.
Qed.

Lemma dict_find_set_other (V : Type) (d : dict V) (k k' : str) (v : V) :
  k <> k' -> dict_find (dict_set d k v) k' = dict_find d k'.
Proof.
  intros Hne. induction d as [|[k0 x] d IH]; simpl.
  - apply str_eqb_neq in Hne. now rewrite Hne.
  - destruct (str_eqb k0 k) eqn:E; simpl.
    + apply str_eqb_eq in E; subst k0.
      apply str_eqb_neq in Hne. now rewrite Hne.
    + destruct (str_eqb k0 k'); auto.
Qed.

(** Writing a key that is there keeps the keys; writing a new key adds
    it at the end. *)
Lemma dict_set_keys (V : Type) (d : dict V) (k : str) (v : V) :
  map fst (dict_set d k v)
  = match dict_find d k with
    | Some _ => map fst d
    | None => map fst d ++ [k]
    end.
Proof.
  induction d as [|[k0 x] d IH]; simpl; [reflexivity|].
  destruct (str_eqb k0 k) eqn:E; simpl; [reflexivity|].
  rewrite IH. now destruct (dict_find d k).
Qed.

Lemma dict_find_None_keys (V : Type) (d : dict V) (k : str) :
  dict_find d k = None <-> ~ In k (map fst d).
Proof.
  induction d as [|[k0 x] d IH]; simpl; [tauto|].
  destruct (str_eqb k0 k) eqn:E.
  - apply str_eqb_eq in E. split; [discriminate|tauto].
  - apply str_eqb_neq in E. rewrite IH. tauto.
Qed.

Lemma sum_counts_set (d : dict StageStats) (k : str) (v : StageStats) :
  sum_counts (dict_set d k v)
  = (sum_counts d - stage_count d k + count v)%Z.
Proof.
  unfold stage_count.
  induction d as [|[k0 x] d IH]; simpl; [lia|].
  destruct (str_eqb k0 k) eqn:E; simpl; [lia|].
  rewrite IH. lia.
Qed.

(** One step of the loop: the count of the stage of the entry goes up
    by one, the other counts stay. *)
Lemma count_entry_stage_count (d : dict StageStats) (e : LogEntry) (s : str) :
  stage_count (count_entry d e) s
  = (stage_count d s + if str_eqb (stage e) s then 1 else 0)%Z.
Proof.
  unfold count_entry, stage_count.
  destruct (dict_find d (stage e)) as [st|] eqn:E.
  - rewrite E. destruct (str_eqb (stage e) s) eqn:Es.
    + apply str_eqb_eq in Es; subst s.
      now rewrite dict_find_set_same, E.
    + apply str_eqb_neq in Es.
      rewrite dict_find_set_other by assumption. lia.
  - rewrite dict_find_set_same.
    destruct (str_eqb (stage e) s) eqn:Es.
    + apply str_eqb_eq in Es; subst s.
      now rewrite dict_find_set_same, E.
    + apply str_eqb_neq in Es.
      rewrite !dict_find_set_other by assumption. lia.
Qed.

Lemma count_entry_sum (d : dict StageStats) (e : LogEntry) :
  sum_counts (count_entry d e) = (sum_counts d + 1)%Z.
Proof.
  unfold count_entry.
  destruct (dict_find d (stage e)) as [st|] eqn:E.
  - rewrite E, sum_counts_set. unfold stage_count. rewrite E. simpl. lia.
  - rewrite dict_find_set_same, !sum_counts_set. unfold stage_count.
    rewrite dict_find_set_same, E. simpl. lia.
Qed.

Lemma count_entry_keys (d : dict StageStats) (e : LogEntry) :
  NoDup (map fst d) -> NoDup (map fst (count_entry d e)).
Proof.
  intros H. unfold count_entry.
  destruct (dict_find d (stage e)) as [st|] eqn:E.
  - rewrite E, dict_set_keys, E. exact H.
  - rewrite dict_find_set_same, dict_set_keys, dict_find_set_same.
    rewrite dict_set_keys, E.
    apply NoDup_app; [exact H|repeat constructor; intros []|].
    intros x Hx [<-|[]]. now apply dict_find_None_keys in E.
Qed.

Lemma count_entry_avg (d : dict StageStats) (e : LogEntry) :
  Forall (fun kv => avg_metric (snd kv) = 0%Z) d ->
  Forall (fun kv => avg_metric (snd kv) = 0%Z) (count_entry d e).
Proof.
  assert (Hset : forall (d0 : dict StageStats) k v,
             Forall (fun kv => avg_metric (snd kv) = 0%Z) d0 ->
             avg_metric v = 0%Z ->
             Forall (fun kv => avg_metric (snd kv) = 0%Z) (dict_set d0 k v)).
  { induction d0 as [|[k0 x] d0 IH]; intros k v Hd Hv; simpl.
    - now repeat constructor.
    - inversion Hd; subst. destruct (str_eqb k0 k); constructor; auto. }
  assert (Hfind : forall (d0 : dict StageStats) k st,
             Forall (fun kv => avg_metric (snd kv) = 0%Z) d0 ->
             dict_find d0 k = Some st -> avg_metric st = 0%Z).
  { induction d0 as [|[k0 x] d0 IH]; intros k st Hd; simpl; [discriminate|].
    inversion Hd; subst. destruct (str_eqb k0 k); [|eauto].
    intros H; now inversion H; subst. }
  intros H. unfold count_entry.
  destruct (dict_find d (stage e)) as [st|] eqn:E.
  - rewrite E. apply Hset; [exact H|]. simpl. eauto.
  - rewrite dict_find_set_same. apply Hset; [|reflexivity].
    now apply Hset.
Qed.

Lemma fold_count_entry (log : list LogEntry) : forall d,
  let d' := fold_left count_entry log d in
  (forall s, stage_count d' s
             = (stage_count d s + Z.of_nat (entries_of_stage s log))%Z)
  /\ sum_counts d' = (sum_counts d + Z.of_nat (length log))%Z
  /\ (NoDup (map fst d) -> NoDup (map fst d'))
  /\ (Forall (fun kv => avg_metric (snd kv) = 0%Z) d ->
      Forall (fun kv => avg_metric (snd kv) = 0%Z) d').
Proof.
  induction log as [|e log IH]; intros d; cbn zeta.
  - simpl. repeat split; auto; intros; lia.
  - cbn [fold_left]. destruct (IH (count_entry d e)) as [H1 [H2 [H3 H4]]].
    repeat split.
    + intros s. rewrite H1, count_entry_stage_count.
      unfold entries_of_stage. cbn [filter].
      destruct (str_eqb (stage e) s); simpl length; lia.
    + rewrite H2, count_entry_sum. simpl length. lia.
    + intros H. apply H3. now apply count_entry_keys.
    + intros H. apply H4. now apply count_entry_avg.
Qed.

(** A stage is a key of the statistics exactly when the log has an
    entry of it. *)
Lemma fold_count_entry_keys (log : list LogEntry) : forall d s,
  In s (map fst (fold_left count_entry log d))
  <-> In s (map fst d) \/ In s (map stage log).
Proof.
  induction log as [|e log IH]; intros d s; cbn [fold_left map].
  - simpl. tauto.
  - rewrite IH. unfold count_entry.
    destruct (dict_find d (stage e)) as [st|] eqn:E.
    + rewrite E, dict_set_keys, E.
      assert (In (stage e) (map fst d)).
      { destruct (in_dec (list_eq_dec ascii_dec) (stage e) (map fst d))
          as [Hin|Hn]; [exact Hin|].
        apply dict_find_None_keys in Hn. congruence. }
      simpl. intuition (subst; auto).
    + rewrite dict_find_set_same, dict_set_keys, dict_find_set_same.
      rewrite dict_set_keys, E, in_app_iff. simpl. tauto.
Qed.

(** The statistics count the log: for a log with an entry in it, the
    stages are distinct keys, a stage is a key exactly when the log has
    an entry of it, its count is the number of those entries, the counts
    add up to the total, and no average is ever computed (every
    [avg_metric] is 0). *)
Theorem get_pipeline_stats_counts_entries (w : World) (s : str) :
  transformation_log w <> [] ->
  exists d,
    stages (fst (get_pipeline_stats w)) = Some d
    /\ NoDup (map fst d)
    /\ (In s (map fst d) <-> In s (map stage (transformation_log w)))
    /\ stage_count d s
       = Z.of_nat (entries_of_stage s (transformation_log w))
    /\ sum_counts d = total_transformations (fst (get_pipeline_stats w))
    /\ Forall (fun kv => avg_metric (snd kv) = 0%Z) d.
Proof.
  intros Hne. unfold get_pipeline_stats, stats_of_log. cbn [fst].
  destruct (transformation_log w) as [|e0 log] eqn:E; [congruence|].
  eexists; split; [reflexivity|].
  destruct (fold_count_entry (e0 :: log) []) as [H1 [H2 [H3 H4]]].
  cbn zeta in *. repeat split.
  - apply H3. constructor.
  - intros H. apply fold_count_entry_keys in H. now destruct H.
  - intros H. apply fold_count_entry_keys. now right.
  - rewrite H1. reflexivity.
  - rewrite H2. reflexivity.
  - apply H4. constructor.
Qed.

Lemma get_pipeline_stats_counts_entries_witness :
  exists d,
    stages (fst (get_pipeline_stats
                   (snd (bronze_to_silver_document (document scenario_A)
                           sample_world)))) = Some d
    /\ stage_count d (py "bronze_to_silver") = 1%Z.
Proof.
  destruct (get_pipeline_stats_counts_entries
              (snd (bronze_to_silver_document (document scenario_A)
                      sample_world))
              (py "bronze_to_silver")) as [d [H1 [_ [_ [H2 _]]]]].
  - vm_compute. discriminate.
  - exists d. split; [exact H1|]. rewrite H2. vm_compute. reflexivity.
Defined.


End Statistics.

(* ================================================================= *)
(** ** What the transformations write to the log *)

Section Logging.

Lemma reported_count_entries (log : list LogEntry) (s : str) :
  reported_count (stats_of_log log) s = Z.of_nat (entries_of_stage s log).
Proof.
  unfold reported_count, stats_of_log.
  destruct log as [|e0 log]; [reflexivity|]. cbn [stages].
  destruct (fold_count_entry (e0 :: log) []) as [H1 _].
  cbn zeta in H1. now rewrite H1.
Qed.

Lemma total_entries (log : list LogEntry) :
  total_transformations (stats_of_log log) = Z.of_nat (length log).
Proof. now destruct log. Qed.

(** The statistics after one more entry. *)
Lemma stats_after_append (log : list LogEntry) (e : LogEntry) (s : str) :
  total_transformations (stats_of_log (log ++ [e]))
  = (total_transformations (stats_of_log log) + 1)%Z
  /\ reported_count (stats_of_log (log ++ [e])) s
     = (reported_count (stats_of_log log) s
        + if str_eqb (stage e) s then 1 else 0)%Z
  /\ last_transformation (stats_of_log (log ++ [e])) = Some (timestamp e).
Proof.
  rewrite !total_entries, !reported_count_entries.
  unfold entries_of_stage. rewrite filter_app, !length_app. cbn [filter].
  repeat split.
  - simpl length. lia.
  - destruct (str_eqb (stage e) s); simpl length; lia.
  - unfold stats_of_log. destruct (log ++ [e]) as [|e0 l] eqn:E.
    + now destruct log.
    + rewrite <- E. cbn [last_transformation]. now rewrite last_last.
Qed.

(** Extraction adds one entry at the end of the log and touches no
    earlier entry: the entry has stage "bronze_to_silver", the id of the
    document and, as metric, the number of entities returned.  In the
    statistics the total and the count of that stage go up by one, the
    other counts stay, and the last transformation is the time of the
    new entry. *)
Theorem bronze_to_silver_document_logs_entity_count
    (d : BronzeDocument.t) (w : World) (s : str) :
  let r := bronze_to_silver_document d w in
  let stats := fst (get_pipeline_stats w) in
  let stats' := fst (get_pipeline_stats (snd r)) in
  transformation_log (snd r)
  = transformation_log w
    ++ [mkLogEntry (clock w (ticks w + length (fst r)))
          (py "bronze_to_silver") (BronzeDocument.document_id d)
          (MInt (Z.of_nat (length (fst r))))]
  /\ total_transformations stats' = (total_transformations stats + 1)%Z
  /\ reported_count stats' s
     = (reported_count stats s
        + if str_eqb (py "bronze_to_silver") s then 1 else 0)%Z
  /\ last_transformation stats'
     = Some (clock w (ticks w + length (fst r))).
Proof.
  cbn zeta. rewrite bronze_to_silver_document_spec.
  unfold get_pipeline_stats. cbn [fst snd transformation_log].
  rewrite stamp_list_length.
  split; [reflexivity|]. apply stats_after_append.
Qed.

(** Aggregation adds one entry at the end of the log and touches no
    earlier entry: the entry has stage "silver_to_gold", the patient id
    and, as metric, the business value of the profile returned; the
    statistics move as for extraction. *)
Theorem silver_to_gold_patient_logs_business_value
    (patient_id : str) (entities : list Entity) (d : Demographics.t)
    (w : World) (s : str) :
  let r := silver_to_gold_patient patient_id entities d w in
  let stats := fst (get_pipeline_stats w) in
  let stats' := fst (get_pipeline_stats (snd r)) in
  transformation_log (snd r)
  = transformation_log w
    ++ [mkLogEntry (clock w (S (ticks w))) (py "silver_to_gold") patient_id
          (MFloat (Gold._business_value (fst r)))]
  /\ total_transformations stats' = (total_transformations stats + 1)%Z
  /\ reported_count stats' s
     = (reported_count stats s
        + if str_eqb (py "silver_to_gold") s then 1 else 0)%Z
  /\ last_transformation stats' = Some (clock w (S (ticks w))).
Proof.
  cbn zeta. rewrite silver_to_gold_patient_spec.
  unfold get_pipeline_stats. cbn [fst snd transformation_log].
  split; [reflexivity|]. apply stats_after_append.
Qed.

End Logging.

(* ================================================================= *)
(** ** The shape of what the patterns read *)

Section Shapes.

Lemma star_class_reads (k : cls) : forall s p s',
  In (p, s') (star_class k s) -> Forall (fun c => cls_mem k c = true) p.
Proof.
  induction s as [|c s IH]; intros p s'; simpl.
  - intros [H|[]]; inversion H; constructor.
  - destruct (cls_mem k c) eqn:E.
    + rewrite in_app_iff, in_map_iff.
      intros [[[p0 s0] [H Hin]]|[H|[]]]; inversion H; subst; simpl.
      * constructor; [exact E|exact (IH _ _ Hin)].
      * constructor.
    + intros [H|[]]; inversion H; constructor.
Qed.

Lemma star_class_nonempty (k : cls) (s : str) : star_class k s <> [].
Proof.
  destruct s as [|c s]; simpl; [discriminate|].
  destruct (cls_mem k c); [|discriminate].
  intros H. apply app_eq_nil in H. destruct H as [_ H]. discriminate.
Qed.

Lemma run_Lit_inv (l s : str) (g : captures) (x : result) :
  In x (run (Lit l) s g) -> read x = l /\ groups_of x = g.
Proof.
  simpl. destruct (strip_prefix l s); [|intros []].
  intros [<-|[]]. now split.
Qed.

Lemma run_Star_inv (k : cls) (s : str) (g : captures) (x : result) :
  In x (run (Star k) s g) ->
  Forall (fun c => cls_mem k c = true) (read x) /\ groups_of x = g.
Proof.
  simpl. rewrite in_map_iff. intros [[p s'] [<- Hin]]. cbn.
  split; [exact (star_class_reads k _ _ _ Hin)|reflexivity].
Qed.

Lemma run_Plus_inv (k : cls) (s : str) (g : captures) (x : result) :
  In x (run (Plus k) s g) ->
  Forall (fun c => cls_mem k c = true) (read x) /\ read x <> []
  /\ groups_of x = g.
Proof.
  simpl. rewrite in_map_iff. intros [[p s'] [<- Hin]]. cbn.
  destruct s as [|c s]; simpl in Hin; [destruct Hin|].
  destruct (cls_mem k c) eqn:E; [|destruct Hin].
  apply in_map_iff in Hin. destruct Hin as [[p0 s0] [H Hin]].
  inversion H; subst. repeat split.
  - constructor; [exact E|exact (star_class_reads k _ _ _ Hin)].
  - discriminate.
Qed.

Lemma run_Opt_inv (r : regex) (s : str) (g : captures) (x : result) :
  In x (run (Opt r) s g) ->
  In x (run r s g) \/ (read x = [] /\ groups_of x = g).
Proof.
  simpl. rewrite in_app_iff. intros [H|[<-|[]]]; [now left|now right].
Qed.

Lemma run_Group_inv (n : nat) (r : regex) (s : str) (g : captures)
    (x : result) :
  In x (run (Group n r) s g) ->
  exists x1,
    In x1 (run r s g) /\ read x = read x1
    /\ groups_of x = (n, read x1) :: groups_of x1.
Proof.
  simpl. rewrite in_map_iff. intros [x1 [<- Hin]]. now exists x1.
Qed.

Lemma run_Seq_inv (r1 r2 : regex) (s : str) (g : captures) (x : result) :
  In x (run (Seq r1 r2) s g) ->
  exists x1 x2,
    In x1 (run r1 s g)
    /\ In x2 (run r2 (remains x1) (groups_of x1))
    /\ read x = read x1 ++ read x2
    /\ groups_of x = groups_of x2.
Proof.
  simpl. rewrite in_flat_map. intros [x1 [H1 H2]].
  apply in_map_iff in H2. destruct H2 as [x2 [<- H2]].
  now exists x1, x2.
Qed.

Lemma always_matches_run (r : regex) : forall s g,
  always_matches r = true -> run r s g <> [].
Proof.
  induction r as [l|k|k|r IH|r1 IH1 r2 IH2|n r IH]; intros s g H; simpl in *.
  - destruct l; [discriminate|discriminate H].
  - intros E. apply map_eq_nil in E. now apply star_class_nonempty in E.
  - discriminate H.
  - intros E. apply app_eq_nil in E. destruct E as [_ E]. discriminate.
  - apply andb_true_iff in H. destruct H as [H1 H2].
    destruct (run r1 s g) as [|x1 l1] eqn:E1; [now apply IH1 in E1|].
    simpl. intros E. apply app_eq_nil in E. destruct E as [E _].
    apply map_eq_nil in E. now apply IH2 in E.
  - intros E. apply map_eq_nil in E. now apply IH in E.
Qed.

(** After a digit, [\d+] followed by a pattern that always matches
    matches. *)
Lemma digits_then_match (r : regex) (c : ascii) (s : str) (g : captures) :
  isdigit c = true -> always_matches r = true ->
  run (Seq (Plus Digit) r) (c :: s) g <> [].
Proof.
  intros Hc Hr. cbn [run plus_class cls_mem]. rewrite Hc.
  destruct (star_class Digit s) as [|y l] eqn:E;
    [now apply star_class_nonempty in E|].
  simpl. intros H. apply app_eq_nil in H. destruct H as [H _].
  apply map_eq_nil in H. now apply always_matches_run in H.
Qed.

End Shapes.

(* ================================================================= *)
(** ** Numerals and dosages *)

(** Takes a hypothesis [In x (run r s g)] apart, constructor by
    constructor of [r]. *)
Ltac invert_run :=
  repeat match goal with
  | H : In _ (run (Seq _ _) _ _) |- _ =>
      apply run_Seq_inv in H;
      let x1 := fresh "x" in let x2 := fresh "x" in
      let H1 := fresh "H" in let H2 := fresh "H" in
      let R := fresh "R" in let G := fresh "G" in
      destruct H as [x1 [x2 [H1 [H2 [R G]]]]]
  | H : In _ (run (Group _ _) _ _) |- _ =>
      apply run_Group_inv in H;
      let x1 := fresh "x" in let H1 := fresh "H" in
      let R := fresh "R" in let G := fresh "G" in
      destruct H as [x1 [H1 [R G]]]
  | H : In _ (run (Lit _) _ _) |- _ =>
      apply run_Lit_inv in H;
      let R := fresh "R" in let G := fresh "G" in destruct H as [R G]
  | H : In _ (run (Star _) _ _) |- _ =>
      apply run_Star_inv in H;
      let F := fresh "F" in let G := fresh "G" in destruct H as [F G]
  | H : In _ (run (Plus _) _ _) |- _ =>
      apply run_Plus_inv in H;
      let F := fresh "F" in let N := fresh "N" in let G := fresh "G" in
      destruct H as [F [N G]]
  | H : In _ (run (Opt _) _ _) |- _ =>
      apply run_Opt_inv in H;
      let R := fresh "R" in let G := fresh "G" in
      destruct H as [H|[R G]]
  end.

(** Puts the equations an inversion leaves into the goal and the other
    hypotheses. *)
Ltac chain_run :=
  repeat match goal with
  | H : groups_of ?x = _ |- _ => rewrite H in *; clear H
  | H : read ?x = _ |- _ => rewrite H in *; clear H
  end.

Section Numerals.

(** What the group [( \d+\.?\d* )] reads is a numeral, and it is the
    only group it sets. *)
Lemma number_group_reads (s : str) (g : captures) (x : result) :
  In x (run number_group s g) ->
  numeral (read x) /\ groups_of x = (1, read x) :: g.
Proof.
  unfold number_group. intros H. invert_run; chain_run.
  - split; [|reflexivity].
    match goal with
    | |- numeral (?a ++ _ ++ ?b) => exists a, b
    end.
    repeat split; auto.
  - split; [|reflexivity].
    match goal with
    | |- numeral (?a ++ [] ++ ?b) => exists (a ++ b), []
    end.
    repeat split.
    + intros E. apply app_eq_nil in E. now destruct E.
    + now apply Forall_app.
    + constructor.
    + left. reflexivity.
Qed.

(** What the group [( \d+ )] reads is a numeral without a point. *)
Lemma integer_group_reads (s : str) (g : captures) (x : result) :
  In x (run integer_group s g) ->
  numeral (read x) /\ all_digits (read x) /\ read x <> []
  /\ groups_of x = (1, read x) :: g.
Proof.
  unfold integer_group. intros H. invert_run; chain_run.
  repeat split; auto.
  match goal with
  | |- numeral ?a => exists a, []
  end.
  repeat split; auto. constructor.
Qed.

Lemma digit_not_point (c : ascii) :
  isdigit c = true -> Ascii.eqb c "."%char = false.
Proof.
  destruct c as [[] [] [] [] [] [] [] []]; intros H;
    try reflexivity; discriminate H.
Qed.

Lemma split_dot_digits (ds : str) :
  all_digits ds -> PyFloat.split_dot ds = (ds, None).
Proof.
  induction 1 as [|c l Hc _ IH]; simpl; [reflexivity|].
  now rewrite (digit_not_point c Hc), IH.
Qed.

Lemma split_dot_point (ds fr : str) :
  all_digits ds -> PyFloat.split_dot (ds ++ "."%char :: fr) = (ds, Some fr).
Proof.
  induction 1 as [|c l Hc _ IH]; simpl; [reflexivity|].
  now rewrite (digit_not_point c Hc), IH.
Qed.

Lemma all_digits_forallb (ds : str) : all_digits ds -> forallb isdigit ds = true.
Proof. intros H. apply forallb_forall. now apply Forall_forall. Qed.

(** [float] takes every numeral. *)
Lemma of_str_numeral (g : str) :
  numeral g -> exists x, PyFloat.of_str g = Some x.
Proof.
  intros [ip [fr [Hne [Hip [Hfr [->| ->]]]]]]; unfold PyFloat.of_str.
  - rewrite split_dot_digits by assumption.
    destruct ip as [|c ip]; [congruence|].
    rewrite (all_digits_forallb _ Hip). simpl. eauto.
  - rewrite split_dot_point by assumption.
    destruct ip as [|c ip]; [congruence|].
    rewrite (all_digits_forallb _ Hip), (all_digits_forallb _ Hfr).
    simpl. eauto.
Qed.

End Numerals.

(* ================================================================= *)
(** ** The entities extraction writes *)

Section EntityShapes.

Lemma match_at_run (r : regex) (s : str) (m : Match) :
  match_at r s = Some m ->
  exists x, In x (run r s []) /\ group0 m = read x /\ groups m = groups_of x.
Proof.
  unfold match_at. destruct (run r s []) as [|x l] eqn:E; [discriminate|].
  intros H; inversion H; subst; simpl. exists x. now repeat split; [left|..].
Qed.

Lemma lstrip_fixed (c : ascii) (s : str) :
  isspace c = false -> lstrip (c :: s) = c :: s.
Proof. intros H. simpl. now rewrite H. Qed.

Lemma rstrip_fixed (c : ascii) (s : str) :
  isspace c = false -> rstrip (s ++ [c]) = s ++ [c].
Proof.
  intros H. unfold rstrip. rewrite rev_app_distr. simpl.
  rewrite H. simpl. now rewrite rev_involutive.
Qed.

Lemma strip_fixed (c c' : ascii) (s : str) :
  isspace c = false -> isspace c' = false ->
  strip (c :: s ++ [c']) = c :: s ++ [c'].
Proof.
  intros H H'. unfold strip. rewrite lstrip_fixed by exact H.
  exact (rstrip_fixed c' (c :: s) H').
Qed.

(** The groups of a match of a medication pattern: the name, and the
    dosage when there is one. *)
Lemma med_pattern_groups (name : string) (s : str) (x : result) :
  In x (run (med_pattern name) s []) ->
  groups_of x = [(1, py name)]
  \/ exists g, dosage_text g /\ groups_of x = [(2, g); (1, py name)].
Proof.
  unfold med_pattern. intros H. invert_run; chain_run.
  - right. eexists. split; [|reflexivity].
    match goal with
    | |- dosage_text (?a ++ ?b ++ _) => exists a, b
    end.
    repeat split; auto.
  - now left.
Qed.

Lemma med_name_first_char (name : string) :
  In name med_name_strings ->
  exists c rest, py name = c :: rest /\ isspace c = false.
Proof.
  intros H. repeat (destruct H as [<-|H]; [eexists; eexists; now split|]).
  destruct H.
Qed.

Lemma medication_of_match_shape (name : string) (s : str) (m : Match) :
  In name med_name_strings ->
  match_at (med_pattern name) s = Some m ->
  medication_shape (medication_of_match m).
Proof.
  intros Hname Hm. apply match_at_run in Hm.
  destruct Hm as [x [Hin [_ Hg]]].
  exists (py name). split; [now apply in_map|].
  unfold medication_of_match, group_str, group.
  cbn [normalized_code entity_value]. rewrite Hg.
  destruct (med_pattern_groups _ _ _ Hin) as [->|[g [Hd ->]]];
    cbn [lookup Nat.eqb get truthy].
  - split; [reflexivity|now left].
  - split; [reflexivity|]. right. exists g. split; [exact Hd|].
    destruct Hd as [ds [ws [Hne [_ [_ ->]]]]].
    destruct ds as [|d ds]; [congruence|]. cbn [app truthy].
    destruct (med_name_first_char name Hname) as [c [rest [-> Hc]]].
    replace ((c :: rest) ++ py " " ++ d :: ds ++ ws ++ py "mg")
      with (c :: (rest ++ py " " ++ d :: ds ++ ws ++ py "m") ++ ["g"%char]).
    + apply strip_fixed; [exact Hc|reflexivity].
    + cbn. rewrite <- !app_assoc. cbn. now rewrite <- !app_assoc.
Qed.

(** Every medication entity has as value a name of the rule table, alone
    or followed by one space and a dosage (digits, whitespace if any,
    "mg"), whatever whitespace the text has between the two; its code is
    the entry of that name in the RxNorm table, which only metformin,
    lisinopril, atorvastatin and amlodipine have. *)
Theorem _extract_medications_shape (text : str) (w : World) :
  Forall (fun e => medication_shape (obj e)
                   /\ entity_type (obj e) = py "medication"
                   /\ extracted_from (obj e) <> [])
    (fst (_extract_medications text w))
  /\ map _get_rxnorm_code med_names
     = [ Some (py "6809"); Some (py "29046"); Some (py "83367");
         Some (py "17767"); None; None; None ].
Proof.
  split; [|reflexivity].
  rewrite _extract_medications_spec. cbn [fst].
  apply Forall_forall; intros e He. apply stamp_list_In in He.
  unfold medication_fields in He. rewrite med_patterns_names in He.
  apply in_flat_map in He. destruct He as [p [Hp He]].
  apply in_map_iff in Hp. destruct Hp as [n [<- Hn]].
  apply in_map_iff in He. destruct He as [m [<- Hin]].
  apply finditer_In in Hin. destruct Hin as [pre [s' [_ Hmatch]]].
  repeat split.
  - exact (medication_of_match_shape n s' m Hn Hmatch).
  - cbn. apply med_pattern_match in Hmatch.
    destruct Hmatch as [ws [rest [_ ->]]].
    intros E. apply app_eq_nil in E. destruct E as [_ E]. discriminate.
Qed.

(** The group of a match of a lab pattern is a numeral. *)
Lemma lab_pattern_groups (rule : regex * str) (s : str) (x : result) :
  In rule lab_patterns ->
  In x (run (fst rule) s []) ->
  exists g, numeral g /\ groups_of x = [(1, g)].
Proof.
  intros Hr H. unfold lab_patterns in Hr.
  repeat (destruct Hr as [<-|Hr];
          [cbn [fst] in H; invert_run;
           repeat match goal with
           | H : In _ (run number_group _ _) |- _ =>
               apply number_group_reads in H; destruct H as [? ?]
           | H : In _ (run integer_group _ _) |- _ =>
               apply integer_group_reads in H; destruct H as [? [_ [_ ?]]]
           end;
           chain_run; eexists; (split; [eassumption|reflexivity])|]).
  destruct Hr.
Qed.

(** Every lab entity has as value a lab name of the rule table, ": " and
    the numeral read from the text; [float] takes that numeral; the code
    is the entry of the lab name in the LOINC table, which the two
    cholesterol labs do not have. *)
Theorem _extract_lab_values_shape (text : str) (w : World) :
  Forall (fun e => lab_shape (obj e)
                   /\ entity_type (obj e) = py "lab_value")
    (fst (_extract_lab_values text w))
  /\ map (fun rule => (snd rule, _get_loinc_code (snd rule))) lab_patterns
     = [ (py "hemoglobin_a1c", Some (py "4548-4"));
         (py "glucose", Some (py "2345-7"));
         (py "creatinine", Some (py "2160-0"));
         (py "egfr", Some (py "33914-3"));
         (py "ldl_cholesterol", None);
         (py "hdl_cholesterol", None) ].
Proof.
  split; [|reflexivity].
  - rewrite _extract_lab_values_spec. cbn [fst].
    apply Forall_forall; intros e He. apply stamp_list_In in He.
    unfold lab_fields in He.
    apply in_flat_map in He. destruct He as [rule [Hr He]].
    apply in_map_iff in He. destruct He as [m [<- Hin]].
    apply finditer_In in Hin. destruct Hin as [pre [s' [_ Hmatch]]].
    apply match_at_run in Hmatch. destruct Hmatch as [x [Hx [_ Hg]]].
    destruct (lab_pattern_groups rule s' x Hr Hx) as [g [Hnum Hgx]].
    split; [|reflexivity].
    exists (snd rule), g. repeat split.
    + now apply in_map.
    + exact Hnum.
    + destruct (of_str_numeral g Hnum) as [v ->]. discriminate.
    + unfold lab_of_match, group_str, group. cbn [entity_value].
      now rewrite Hg, Hgx.
Qed.

End EntityShapes.

(* ================================================================= *)
(** ** When an assessment is "unknown" *)

Section Unknown.

Lemma contains_split (needle hay : str) :
  contains needle hay = true ->
  exists pre post, hay = pre ++ needle ++ post.
Proof.
  induction hay as [|c hay IH]; simpl; unfold startswith.
  - destruct (strip_prefix needle []) as [s'|] eqn:E; [|discriminate].
    intros _. apply strip_prefix_Some in E. now exists [], s'.
  - destruct (strip_prefix needle (c :: hay)) as [s'|] eqn:E.
    + intros _. apply strip_prefix_Some in E. now exists [], s'.
    + simpl. intros H. destruct (IH H) as [pre [post ->]].
      now exists (c :: pre), post.
Qed.

Lemma filter_head_find (A : Type) (f : A -> bool) (l : list A) :
  find f l = hd_error (filter f l).
Proof.
  induction l as [|a l IH]; simpl; [reflexivity|].
  now destruct (f a).
Qed.

(** Where the text has a digit, the search for a number finds a
    numeral. *)
Lemma search_number_group_digit (v : str) :
  Exists (fun c => isdigit c = true) v ->
  exists m g,
    search number_group v = Some m /\ group m 1 = Some g /\ numeral g.
Proof.
  induction v as [|c v IH]; intros H; [inversion H|].
  cbn [search].
  destruct (match_at number_group (c :: v)) as [m|] eqn:E.
  - apply match_at_run in E. destruct E as [x [Hx [_ Hg]]].
    apply number_group_reads in Hx. destruct Hx as [Hnum Hgx].
    exists m, (read x). repeat split; [|exact Hnum].
    unfold group. now rewrite Hg, Hgx.
  - inversion H as [? ? Hc|? ? Hv]; subst.
    + exfalso. unfold match_at, number_group in E. cbn [run] in E.
      pose proof (digits_then_match (Opt (Lit (py ".")) @@ \d*)%re c v []
                    Hc eq_refl) as Hne.
      cbn [run] in Hne.
      destruct (flat_map _ _); [now apply Hne|discriminate E].
    + exact (IH Hv).
Qed.

Lemma search_integer_group_digit (v : str) :
  Exists (fun c => isdigit c = true) v ->
  exists m g,
    search integer_group v = Some m /\ group m 1 = Some g /\ numeral g.
Proof.
  induction v as [|c v IH]; intros H; [inversion H|].
  cbn [search].
  destruct (match_at integer_group (c :: v)) as [m|] eqn:E.
  - apply match_at_run in E. destruct E as [x [Hx [_ Hg]]].
    apply integer_group_reads in Hx. destruct Hx as [Hnum [_ [_ Hgx]]].
    exists m, (read x). repeat split; [|exact Hnum].
    unfold group. now rewrite Hg, Hgx.
  - inversion H as [? ? Hc|? ? Hv]; subst.
    + exfalso. unfold match_at, integer_group in E.
      cbn [run plus_class cls_mem] in E. rewrite Hc in E.
      destruct (star_class Digit v) eqn:Es;
        [now apply star_class_nonempty in Es|discriminate E].
    + exact (IH Hv).
Qed.

Lemma search_integer_group_no_digit (v : str) :
  Forall (fun c => isdigit c = false) v -> search integer_group v = None.
Proof.
  induction 1 as [|c v Hc _ IH]; [reflexivity|].
  cbn [search]. unfold match_at at 1, integer_group at 1.
  cbn [run plus_class cls_mem]. rewrite Hc. exact IH.
Qed.

Lemma mention_has_digit (v : str) :
  contains (py "hemoglobin_a1c") v = true ->
  Exists (fun c => isdigit c = true) v.
Proof.
  intros H. apply contains_split in H. destruct H as [pre [post ->]].
  apply Exists_app. right. apply Exists_app. left.
  repeat (try (apply Exists_cons_hd; reflexivity); apply Exists_cons_tl).
Qed.

(** The diabetes assessment is "unknown" exactly when no entity
    mentions the lab name: when one does, its value holds a digit (the 1
    of the name at the least), the search finds a numeral, [float] takes
    it, and the answer is one of the three grades.  No parse failure is
    ever caught. *)
Theorem _assess_diabetes_control_unknown_iff_absent (entities : list Entity) :
  (_assess_diabetes_control entities = py "unknown"
   <-> first_mentioning "hemoglobin_a1c" entities = None)
  /\ (first_mentioning "hemoglobin_a1c" entities = None
      \/ In (_assess_diabetes_control entities)
           [ py "well_controlled"; py "moderately_controlled";
             py "poorly_controlled" ]).
Proof.
  unfold first_mentioning. rewrite filter_head_find.
  unfold _assess_diabetes_control.
  match goal with
  | |- context [filter ?f entities] =>
      destruct (filter f entities) as [|e0 l] eqn:E
  end; cbn [hd_error].
  - split; [now split|now left].
  - assert (Hin : In e0 (e0 :: l)) by now left.
    rewrite <- E in Hin. apply filter_In in Hin. destruct Hin as [_ Hc].
    destruct (search_number_group_digit _ (mention_has_digit _ Hc))
      as [m [g [-> [-> Hnum]]]].
    destruct (of_str_numeral g Hnum) as [x ->]. cbn [try_except get].
    destruct (PrimFloat.ltb x 7); [|destruct (PrimFloat.ltb x 8)];
      (split; [split; discriminate|right; simpl; auto]).
Qed.

(** The renal assessment is "unknown" exactly when no entity mentions
    "egfr" or the first that does has no digit in its value; otherwise
    it is one of the four grades. *)
Theorem _assess_renal_function_unknown_iff (entities : list Entity) :
  (_assess_renal_function entities = py "unknown"
   <-> match first_mentioning "egfr" entities with
       | None => True
       | Some e0 => Forall (fun c => isdigit c = false)
                      (entity_value (obj e0))
       end)
  /\ (_assess_renal_function entities = py "unknown"
      \/ In (_assess_renal_function entities)
           [ py "normal"; py "mild_impairment"; py "moderate_impairment";
             py "severe_impairment" ]).
Proof.
  unfold first_mentioning. rewrite filter_head_find.
  unfold _assess_renal_function.
  match goal with
  | |- context [filter ?f entities] =>
      destruct (filter f entities) as [|e0 l] eqn:E
  end; cbn [hd_error].
  - split; [now split|now left].
  - destruct (Exists_dec (fun c => isdigit c = true) (entity_value (obj e0)))
      as [Hd|Hn]; [intros c; destruct (isdigit c); auto|..].
    + destruct (search_integer_group_digit _ Hd) as [m [g [-> [-> Hnum]]]].
      destruct (of_str_numeral g Hnum) as [x ->]. cbn [try_except get].
      assert (Hno : ~ Forall (fun c => isdigit c = false)
                      (entity_value (obj e0))).
      { intros HF. apply Exists_exists in Hd. destruct Hd as [c [Hc1 Hc2]].
        rewrite Forall_forall in HF. specialize (HF c Hc1). congruence. }
      destruct (PrimFloat.leb 90 x);
        [|destruct (PrimFloat.leb 60 x); [|destruct (PrimFloat.leb 30 x)]];
        (split; [split; [discriminate|intros HF; now apply Hno in HF]
                |right; simpl; auto 6]).
    + assert (HF : Forall (fun c => isdigit c = false)
                     (entity_value (obj e0))).
      { apply Forall_forall. intros c Hc.
        destruct (isdigit c) eqn:Ec; [|reflexivity].
        exfalso. apply Hn. apply Exists_exists. now exists c. }
      rewrite (search_integer_group_no_digit _ HF). cbn [try_except get].
      split; [now split|now left].
Qed.

End Unknown.

(* ================================================================= *)
(** ** Diagnoses and cardiac risk of a text *)

Section CardiacRisk.

Lemma finditer_from_nil_iff (r : regex) : forall s,
  finditer_from r s 0 = [] <-> occurrences r s = 0.
Proof.
  induction s as [|c s IH]; simpl; [tauto|].
  destruct (match_at r (c :: s)); simpl.
  - split; [discriminate|lia].
  - exact IH.
Qed.

Lemma nonempty_finditer (r : regex) (text : str) :
  nonempty (finditer r (lower text)) = occurs r text.
Proof.
  unfold occurs, finditer.
  destruct (finditer_from r (lower text) 0) as [|m l] eqn:E.
  - apply finditer_from_nil_iff in E. now rewrite E.
  - simpl. symmetry. apply Nat.ltb_lt.
    destruct (occurrences r (lower text)) eqn:Eo; [|lia].
    apply finditer_from_nil_iff in Eo. congruence.
Qed.

Lemma filter_none (A : Type) (f : A -> bool) (l : list A) :
  (forall x, In x l -> f x = false) -> filter f l = [].
Proof.
  induction l as [|a l IH]; intros H; simpl; [reflexivity|].
  rewrite (H a) by now left. apply IH. intros x Hx. apply H. now right.
Qed.

Lemma filter_all (A : Type) (f : A -> bool) (l : list A) :
  (forall x, In x l -> f x = true) -> filter f l = l.
Proof.
  induction l as [|a l IH]; intros H; simpl; [reflexivity|].
  rewrite (H a) by now left. f_equal. apply IH. intros x Hx. apply H.
  now right.
Qed.

Lemma filter_stamp_list (f : SilverClinicalEntity.t -> bool)
    (clk : nat -> str) (l : list SilverClinicalEntity.t) : forall k,
  map (@obj _) (filter (fun e => f (obj e)) (stamp_list clk k l))
  = filter f l.
Proof.
  induction l as [|x l IH]; intros k; simpl; [reflexivity|].
  destruct (f x); simpl; now rewrite IH.
Qed.

Lemma medication_fields_type (text : str) (x : SilverClinicalEntity.t) :
  In x (medication_fields text) -> entity_type x = py "medication".
Proof.
  unfold medication_fields. intros H.
  apply in_flat_map in H. destruct H as [p [_ H]].
  apply in_map_iff in H. now destruct H as [m [<- _]].
Qed.

Lemma diagnosis_fields_type (text : str) (x : SilverClinicalEntity.t) :
  In x (diagnosis_fields text) -> entity_type x = py "diagnosis".
Proof.
  unfold diagnosis_fields. intros H.
  apply in_flat_map in H. destruct H as [p [_ H]].
  apply in_map_iff in H. now destruct H as [m [<- _]].
Qed.

Lemma lab_fields_type (text : str) (x : SilverClinicalEntity.t) :
  In x (lab_fields text) -> entity_type x = py "lab_value".
Proof.
  unfold lab_fields. intros H.
  apply in_flat_map in H. destruct H as [p [_ H]].
  apply in_map_iff in H. now destruct H as [m [<- _]].
Qed.

(** Of the extracted instances, the diagnoses are those of the
    diagnosis loop. *)
Lemma filter_diagnosis_extract_fields (text : str) :
  filter (fun x => str_eqb (entity_type x) (py "diagnosis"))
    (extract_fields text)
  = diagnosis_fields text.
Proof.
  unfold extract_fields. rewrite !filter_app.
  rewrite (filter_none _ _ (medication_fields text)),
    (filter_all _ _ (diagnosis_fields text)),
    (filter_none _ _ (lab_fields text)).
  - now rewrite app_nil_r.
  - intros x Hx. now rewrite (lab_fields_type _ _ Hx).
  - intros x Hx. now rewrite (diagnosis_fields_type _ _ Hx).
  - intros x Hx. now rewrite (medication_fields_type _ _ Hx).
Qed.

Lemma diagnosis_fields_values (text : str) :
  map entity_value (diagnosis_fields text) = diagnoses_by_rule text.
Proof.
  unfold diagnosis_fields, diagnoses_by_rule.
  induction diagnosis_patterns as [|rule rules IH]; simpl; [reflexivity|].
  rewrite map_app, IH. f_equal.
  induction (finditer (fst (fst rule)) (lower text)) as [|m ms IHm];
    simpl; [reflexivity|]. now rewrite IHm.
Qed.

(** The diagnoses of a profile follow the rule table, not the text: for
    each rule in the order type 2 diabetes, hypertension, hyperlipidemia,
    chronic kidney disease, obesity, its standard name once per match.
    The first three of that list are the primary conditions and the
    others the comorbidities, so a condition named three times fills the
    primary conditions by itself. *)
Theorem diagnoses_follow_rule_table
    (text : str) (w w' : World) (patient_id : str) (demo : Demographics.t) :
  let p := profile_of_text text w w' patient_id demo in
  primary_conditions p ++ comorbidities p = diagnoses_by_rule text
  /\ primary_conditions p = firstn 3 (diagnoses_by_rule text)
  /\ map snd diagnosis_patterns
     = [ py "Type 2 Diabetes"; py "Essential Hypertension";
         py "Hyperlipidemia"; py "Chronic kidney disease"; py "Obesity" ].
Proof.
  cbn zeta. unfold profile_of_text.
  rewrite bronze_to_silver_document_spec, silver_to_gold_patient_spec.
  cbn [fst Gold.obj primary_conditions comorbidities
       BronzeDocument.raw_content document].
  assert (E : values_of_type "diagnosis"
                (stamp_list (clock w) (ticks w) (extract_fields text))
              = diagnoses_by_rule text).
  { unfold values_of_type, type_is.
    rewrite <- diagnosis_fields_values, <- filter_diagnosis_extract_fields.
    rewrite <- (filter_stamp_list _ (clock w) (extract_fields text) (ticks w)).
    now rewrite map_map. }
  rewrite E, firstn_skipn. repeat split.
Qed.

Lemma existsb_map_const (A B : Type) (g : B -> bool) (f : A -> B) (b : bool)
    (l : list A) :
  (forall a, g (f a) = b) -> existsb g (map f l) = b && nonempty l.
Proof.
  intros H. induction l as [|a l IH]; simpl; [now rewrite andb_false_r|].
  rewrite H, IH. now destruct b, l.
Qed.

Lemma existsb_of_map (A B : Type) (g : B -> bool) (f : A -> B) (l : list A) :
  existsb g (map f l) = existsb (fun a => g (f a)) l.
Proof. induction l as [|a l IH]; simpl; [reflexivity|]. now rewrite IH. Qed.

Lemma any_diagnosis_mentions_fields (word : string) (clk : nat -> str)
    (l : list SilverClinicalEntity.t) (k : nat) :
  any_diagnosis_mentions word (stamp_list clk k l)
  = existsb (fun x => contains (py word) (lower (entity_value x)))
      (filter (fun x => str_eqb (entity_type x) (py "diagnosis")) l).
Proof.
  unfold any_diagnosis_mentions, type_is.
  rewrite <- (filter_stamp_list _ clk l k).
  now rewrite existsb_of_map.
Qed.

(** Which risk diagnoses the entities of a text mention. *)
Lemma risk_mentions_of_text (text : str) (clk : nat -> str) (k : nat) :
  any_diagnosis_mentions "hypertension"
    (stamp_list clk k (extract_fields text))
  = occurs (Lit (py "hypertension")) text
  /\ any_diagnosis_mentions "hyperlipidemia"
       (stamp_list clk k (extract_fields text))
     = occurs (Lit (py "hyperlipidemia")) text
  /\ any_diagnosis_mentions "diabetes"
       (stamp_list clk k (extract_fields text))
     = occurs type_2_diabetes_pattern text.
Proof.
  rewrite !any_diagnosis_mentions_fields, filter_diagnosis_extract_fields.
  unfold diagnosis_fields, diagnosis_patterns. cbn [flat_map fst snd].
  rewrite !existsb_app.
  repeat split;
    repeat match goal with
    | |- context [existsb ?g (map (diagnosis_of_match ?icd ?name) ?l)] =>
        let b := eval vm_compute in
                   (g (diagnosis_of_match icd name (mkMatch [] [] []))) in
        rewrite (existsb_map_const _ _ g (diagnosis_of_match icd name) b l)
          by reflexivity
    end;
    cbn [andb orb existsb]; rewrite ?orb_false_r; apply nonempty_finditer.
Qed.

(** The cardiac risk of a text is read off three patterns: it is "high"
    when "hypertension", "hyperlipidemia" and "type 2 diabetes" (with any
    whitespace between the words) all occur in the text in any letter
    case, "moderate" for two of them, "low" for one, "minimal" for none;
    how often and where they occur makes no difference. *)
Theorem cardiac_risk_of_text (d : BronzeDocument.t) (w : World) :
  _assess_cardiac_risk (fst (bronze_to_silver_document d w))
  = risk_level
      (length
         (filter id
            [ occurs (Lit (py "hypertension")) (BronzeDocument.raw_content d);
              occurs (Lit (py "hyperlipidemia"))
                (BronzeDocument.raw_content d);
              occurs type_2_diabetes_pattern
                (BronzeDocument.raw_content d) ])).
Proof.
  rewrite bronze_to_silver_document_spec. cbn [fst].
  unfold _assess_cardiac_risk.
  destruct (risk_mentions_of_text (BronzeDocument.raw_content d)
              (clock w) (ticks w)) as [-> [-> ->]].
  destruct (occurs (Lit (py "hypertension")) _),
    (occurs (Lit (py "hyperlipidemia")) _),
    (occurs type_2_diabetes_pattern _); reflexivity.
Qed.

(** The cardiac risk reads the diagnosis entities as a set: two entity
    lists with the same diagnosis entities, in whatever order and
    however often, get the same risk, and entities of other types make
    no difference. *)
Theorem cardiac_risk_ignores_order (entities entities' : list Entity) :
  (forall e, type_is "diagnosis" e = true ->
             (In e entities <-> In e entities')) ->
  _assess_cardiac_risk entities = _assess_cardiac_risk entities'.
Proof.
  intros H.
  assert (Hw : forall word,
             any_diagnosis_mentions word entities
             = any_diagnosis_mentions word entities').
  { intros word. unfold any_diagnosis_mentions.
    apply eq_true_iff_eq. rewrite !existsb_exists.
    split; intros [e [He Hc]]; exists e; (split; [|exact Hc]);
      apply filter_In in He; destruct He as [He Ht]; apply filter_In;
      (split; [now apply (H e Ht)|exact Ht]). }
  unfold _assess_cardiac_risk. now rewrite !Hw.
Qed.

Lemma cardiac_risk_ignores_order_witness :
  _assess_cardiac_risk
    [ diagnosis_entity (py "Hyperlipidemia"); a1c_entity;
      diagnosis_entity (py "Essential Hypertension") ]
  = _assess_cardiac_risk
      [ diagnosis_entity (py "Essential Hypertension");
        diagnosis_entity (py "Hyperlipidemia");
        diagnosis_entity (py "Essential Hypertension") ].
Proof.
  apply cardiac_risk_ignores_order.
  intros e He. simpl.
  split; intros [<-|[<-|[<-|[]]]]; auto; discriminate He.
Defined.

End CardiacRisk.

(* ================================================================= *)
(** ** Scores of the extracted entities and of medications *)

Section ExtractedScores.

Open Scope float_scope.

Lemma stamp_list_stamp (clk : nat -> str) (l : list SilverClinicalEntity.t)
    (e : Entity) : forall k,
  In e (stamp_list clk k l) -> exists j, e = stamp clk j (obj e).
Proof.
  induction l as [|x l IH]; intros k; simpl; [intros []|].
  intros [<-|H]; [now exists k|exact (IH _ H)].
Qed.

Lemma score_of_fields (ty val src : str) (conf : float) (code : option str) :
  In conf [0.9; 0.95; 0.85] ->
  let q := SilverClinicalEntity._calculate_quality_score
             (SilverClinicalEntity.mk ty val conf src code None) in
  q = (if truthy code then 1 else conf)
  /\ (0.85 <=? q) = true /\ (q <=? 1) = true.
Proof.
  unfold SilverClinicalEntity._calculate_quality_score.
  cbn [confidence_score normalized_code temporal_info truthy_dict].
  intros [<-|[<-|[<-|[]]]]; destruct (truthy code); vm_compute; auto.
Qed.

(** Every extracted entity carries the confidence of its loop (0.9 for
    a medication, 0.95 for a diagnosis, 0.85 for a lab value) and no
    temporal information; its quality score is 1 when it has a code and
    its confidence when it has none, so it lies between 0.85 and 1. *)
Theorem extracted_entities_scores (d : BronzeDocument.t) (w : World) :
  Forall extracted_scores (fst (bronze_to_silver_document d w)).
Proof.
  rewrite bronze_to_silver_document_spec. cbn [fst].
  apply Forall_forall; intros e He.
  destruct (stamp_list_stamp _ _ _ _ He) as [j Hj].
  apply stamp_list_In in He. rewrite Hj. clear Hj.
  unfold extracted_scores, stamp. cbn [obj _quality_score _layer].
  unfold extract_fields, medication_fields, diagnosis_fields, lab_fields in He.
  rewrite !in_app_iff in He.
  destruct He as [He|[He|He]];
    apply in_flat_map in He; destruct He as [r [Hr He]];
    apply in_map_iff in He; destruct He as [m [<- _]];
    unfold medication_of_match, diagnosis_of_match, lab_of_match;
    cbn [entity_type confidence_score normalized_code temporal_info];
    match goal with
    | |- context [SilverClinicalEntity.mk ?ty ?val ?conf ?src ?code None] =>
        destruct (score_of_fields ty val src conf code) as [H1 [H2 H3]];
        [simpl; auto|cbn zeta in H1, H2, H3]
    end; repeat split; simpl; auto.
Qed.

(** The score of a structured medication lies between 0 and 1 whatever
    fields are filled in, and it is 1 exactly when name, dosage,
    frequency, route, start date and code are all there. *)
Theorem medication_score_range (self : SilverMedication.t) :
  let score := SilverMedication._calculate_quality_score self in
  (0 <=? score) = true
  /\ (score <=? 1) = true
  /\ (1 <=? score)
     = truthy (Some (SilverMedication.medication_name self))
       && truthy (SilverMedication.dosage self)
       && truthy (SilverMedication.frequency self)
       && truthy (SilverMedication.route self)
       && truthy (SilverMedication.start_date self)
       && truthy (SilverMedication.rxnorm_code self).
Proof.
  unfold SilverMedication._calculate_quality_score. cbn [filter].
  repeat match goal with
  | |- context [truthy ?x] => destruct (truthy x)
  end; cbn [length fold_left andb]; vm_compute; auto.
Qed.

End ExtractedScores.
(* ================================================================= *)
(** ** The grades of the renal function *)

Section RenalGrades.

(** The assessment reads the value of the first entity that mentions
    "egfr" and nothing else. *)
Lemma _assess_renal_function_first
    (before after : list Entity) (e : Entity) :
  Forall (fun x => contains (py "egfr") (entity_value (obj x)) = false)
    before ->
  contains (py "egfr") (entity_value (obj e)) = true ->
  _assess_renal_function (before ++ e :: after)
  = _assess_renal_function [lab_entity (entity_value (obj e))].
Proof.
  intros Hb He. unfold _assess_renal_function.
  rewrite filter_app.
  replace (filter _ before) with (@nil Entity).
  - cbn [app filter lab_entity stamp obj entity_value]. now rewrite He.
  - symmetry. induction Hb as [|x l Hx _ IH]; cbn [filter]; [reflexivity|].
    now rewrite Hx.
Qed.

Lemma renal_grades_below_1000 :
  forallb (fun n => str_eqb
                      (_assess_renal_function
                         [lab_entity (py "egfr: " ++ str_of_nat n)])
                      (renal_grade n))
    (seq 0 1000) = true.
Proof. vm_compute. reflexivity. Qed.

(** For an eGFR of n below 1000, written in decimal after "egfr: " in
    the value of the first entity that mentions "egfr", the renal
    function is "normal" from 90, "mild_impairment" from 60,
    "moderate_impairment" from 30 and "severe_impairment" below; the
    number read is the whole reading. *)
Theorem renal_function_by_reading
    (n : nat) (before after : list Entity) (e : Entity) :
  n < 1000 ->
  Forall (fun x => contains (py "egfr") (entity_value (obj x)) = false)
    before ->
  entity_value (obj e) = py "egfr: " ++ str_of_nat n ->
  _assess_renal_function (before ++ e :: after) = renal_grade n.
Proof.
  intros Hn Hb He.
  rewrite _assess_renal_function_first; [|exact Hb|now rewrite He].
  rewrite He. apply str_eqb_eq.
  pose proof renal_grades_below_1000 as H.
  rewrite forallb_forall in H. apply (H n). apply in_seq. lia.
Qed.

Lemma renal_function_by_reading_witness :
  _assess_renal_function
    ([a1c_entity] ++ lab_entity (py "egfr: 59") :: [])
  = py "moderate_impairment".
Proof.
  apply (renal_function_by_reading 59 [a1c_entity]
           [] (lab_entity (py "egfr: 59"))).
  - lia.
  - repeat constructor.
  - reflexivity.
Defined.

End RenalGrades.

(* ================================================================= *)
(** ** The document endpoint and the store of profiles *)

Section Endpoint.

Lemma list_eqb_str_refl (l : list str) : Main.list_eqb str_eqb l l = true.
Proof.
  induction l as [|a l IH]; simpl; [reflexivity|].
  now rewrite str_eqb_refl, IH.
Qed.

Lemma dict_eqb_refl (d : list (str * str)) : Main.dict_eqb d d = true.
Proof.
  unfold Main.dict_eqb. apply forallb_forall. intros k _.
  destruct (dict_get d k); simpl; [apply str_eqb_refl|reflexivity].
Qed.

Lemma profile_eqb_refl (g : Profile) : Main.profile_eqb g g = true.
Proof.
  unfold Main.profile_eqb.
  now rewrite !str_eqb_refl, Z.eqb_refl, !list_eqb_str_refl, dict_eqb_refl.
Qed.

Lemma profile_eqb_patient (a b : Profile) :
  Main.profile_eqb a b = true ->
  GoldPatientProfile.patient_id (Gold.obj a)
  = GoldPatientProfile.patient_id (Gold.obj b).
Proof.
  unfold Main.profile_eqb. rewrite !andb_true_iff.
  intros [[[[[[[[H _] _] _] _] _] _] _] _]. now apply str_eqb_eq.
Qed.

(** Removing the first profile of a patient, found by its id, takes
    that profile out and no other. *)
Lemma remove_found (pid : str) (g : Profile) : forall l,
  find (fun x => str_eqb (GoldPatientProfile.patient_id (Gold.obj x)) pid) l
  = Some g ->
  profiles_of pid (Main.list_remove Main.profile_eqb g l)
  = tl (profiles_of pid l)
  /\ forall pid', pid' <> pid ->
       profiles_of pid' (Main.list_remove Main.profile_eqb g l)
       = profiles_of pid' l.
Proof.
  induction l as [|y l IH]; simpl; [discriminate|].
  destruct (str_eqb (GoldPatientProfile.patient_id (Gold.obj y)) pid) eqn:E.
  - intros H; inversion H; subst y. rewrite profile_eqb_refl. simpl.
    split; [reflexivity|]. intros pid' Hne.
    apply str_eqb_eq in E. rewrite E.
    assert (str_eqb pid pid' = false) as ->
      by (apply str_eqb_neq; congruence).
    reflexivity.
  - intros H. destruct (IH H) as [H1 H2].
    destruct (Main.profile_eqb y g) eqn:Ey.
    + apply profile_eqb_patient in Ey.
      apply find_some in H. destruct H as [_ Hg].
      apply str_eqb_eq in Hg. rewrite Ey, Hg, str_eqb_refl in E.
      discriminate E.
    + unfold profiles_of in *. simpl. rewrite E. split; [exact H1|].
      intros pid' Hne. now rewrite (H2 pid' Hne).
Qed.

Lemma profiles_of_app (pid : str) (a b : list Profile) :
  profiles_of pid (a ++ b) = profiles_of pid a ++ profiles_of pid b.
Proof. unfold profiles_of. apply filter_app. Qed.

(** The update of the store: for the patient of the new profile, the
    first profile goes and the new one comes last; the profiles of the
    other patients stay as they are. *)
Lemma update_gold_profiles_spec (l : list Profile) (pid : str) (g : Profile) :
  GoldPatientProfile.patient_id (Gold.obj g) = pid ->
  profiles_of pid (Main.update_gold_profiles l pid g)
  = tl (profiles_of pid l) ++ [g]
  /\ forall pid', pid' <> pid ->
       profiles_of pid' (Main.update_gold_profiles l pid g)
       = profiles_of pid' l.
Proof.
  intros Hg. unfold Main.update_gold_profiles.
  assert (Hnew : profiles_of pid [g] = [g]).
  { unfold profiles_of. simpl. now rewrite Hg, str_eqb_refl. }
  assert (Hother : forall pid', pid' <> pid -> profiles_of pid' [g] = []).
  { intros pid' Hne. unfold profiles_of. simpl. rewrite Hg.
    assert (str_eqb pid pid' = false) as ->
      by (apply str_eqb_neq; congruence).
    reflexivity. }
  match goal with
  | |- context [find ?f l] => destruct (find f l) as [g0|] eqn:E
  end; cbv beta iota zeta.
  - destruct (remove_found pid g0 l E) as [H1 H2].
    rewrite profiles_of_app, H1, Hnew.
    split; [reflexivity|]. intros pid' Hne.
    now rewrite profiles_of_app, (H2 pid' Hne), (Hother pid' Hne), app_nil_r.
  - assert (Hnone : profiles_of pid l = []).
    { unfold profiles_of. apply filter_none. intros x Hx.
      exact (find_none _ _ E x Hx). }
    rewrite profiles_of_app, Hnone, Hnew.
    split; [reflexivity|]. intros pid' Hne.
    now rewrite profiles_of_app, (Hother pid' Hne), app_nil_r.
Qed.

Lemma known_patient_find (request : Main.ProcessDocumentRequest)
    (st : Main.Storage) :
  known_patient request st = true ->
  exists p, find (fun p => str_eqb (Main.id p) (Main.patient_id request))
              (Main.patients st) = Some p.
Proof.
  unfold known_patient. intros H.
  destruct (find _ (Main.patients st)) as [p|] eqn:E; [now exists p|].
  apply existsb_exists in H. destruct H as [p [Hp Hid]].
  now rewrite (find_none _ _ E p Hp) in Hid.
Qed.

Lemma unknown_patient_find (request : Main.ProcessDocumentRequest)
    (st : Main.Storage) :
  known_patient request st = false ->
  find (fun p => str_eqb (Main.id p) (Main.patient_id request))
    (Main.patients st) = None.
Proof.
  unfold known_patient. intros H.
  destruct (find _ (Main.patients st)) as [p|] eqn:E; [|reflexivity].
  apply find_some in E. destruct E as [Hp Hid].
  assert (existsb (fun p => str_eqb (Main.id p) (Main.patient_id request))
            (Main.patients st) = true)
    by (apply existsb_exists; now exists p).
  congruence.
Qed.

(** A document built without an ingestion time takes it from the
    clock, and the decorator reads the clock once more. *)
Lemma new_bronze_document_run (document_id patient_id source_system
    document_type raw_content : str) (file_metadata : list (str * str))
    (w : World) :
  new_bronze_document document_id patient_id source_system document_type
    raw_content file_metadata None w
  = (Bronze.mk
       (BronzeDocument.mk document_id patient_id source_system document_type
          raw_content file_metadata (Some (clock w (ticks w))))
       (py "bronze") (clock w (S (ticks w))),
     mkWorld (clock w) (S (S (ticks w))) (transformation_log w)).
Proof. reflexivity. Qed.

(** The endpoint, call by call. *)
Lemma process_document_run (request : Main.ProcessDocumentRequest)
    (st : Main.Storage) (w : World) :
  let doc_id :=
    py "doc_" ++ Main.patient_id request ++ py "_"
    ++ str_of_nat (length (Main.bronze_documents st) + 1) in
  let rb :=
    new_bronze_document doc_id (Main.patient_id request) (py "API_Upload")
      (Main.resource_type request) (Main.document_content request) []
      None w in
  let re := bronze_to_silver_document (Bronze.obj (fst rb)) (snd rb) in
  Main.process_document request st w
  = match find (fun p => str_eqb (Main.id p) (Main.patient_id request))
            (Main.patients st) with
    | Some patient =>
        let rg :=
          silver_to_gold_patient (Main.patient_id request) (fst re)
            (Demographics.mk (Some 52%Z) (Some (py "female"))
               (Some (get (Main.preferred_location
                             (get (Main.preferences patient)
                                (Main.mkPreferences None)))
                        (py "unknown"))))
            (snd re) in
        (Main.mkStorage (Main.patients st)
           (Main.bronze_documents st ++ [fst rb])
           (Main.silver_entities st ++ fst re)
           (Main.update_gold_profiles (Main.gold_profiles st)
              (Main.patient_id request) (fst rg)),
         fst re, Some (fst rg), snd rg)
    | None =>
        (Main.mkStorage (Main.patients st)
           (Main.bronze_documents st ++ [fst rb])
           (Main.silver_entities st ++ fst re)
           (Main.gold_profiles st),
         fst re, None, snd re)
    end.
Proof.
  cbn zeta. unfold Main.process_document, bind.
  destruct (new_bronze_document _ _ _ _ _ _ _ w) as [a w1]. cbn [fst snd].
  destruct (bronze_to_silver_document (Bronze.obj a) w1) as [es w2].
  cbn [fst snd].
  destruct (find _ (Main.patients st)) as [patient|]; [|reflexivity].
  now destruct (silver_to_gold_patient _ _ _ w2) as [g w3].
Qed.

(** For a patient of the store the endpoint returns a profile of that
    patient and puts it into the store. *)
Lemma process_document_known
    (request : Main.ProcessDocumentRequest) (st : Main.Storage) (w : World) :
  known_patient request st = true ->
  exists g,
    profile_of_call request st w = Some g
    /\ GoldPatientProfile.patient_id (Gold.obj g) = Main.patient_id request
    /\ Main.gold_profiles (storage_after request st w)
       = Main.update_gold_profiles (Main.gold_profiles st)
           (Main.patient_id request) g.
Proof.
  intros Hk. destruct (known_patient_find _ _ Hk) as [p Hp].
  unfold profile_of_call, storage_after.
  rewrite process_document_run, Hp. cbn zeta.
  rewrite silver_to_gold_patient_spec. cbn [fst snd Main.gold_profiles].
  eexists. repeat split.
Qed.

(** For a patient of the store, a call of the endpoint replaces the
    profile: the profile it returns belongs to the patient and is built
    from the entities of this document alone; in the store the first
    earlier profile of the patient is gone and the new one is last, and
    the profiles of the other patients are untouched. *)
Theorem process_document_replaces_profile
    (request : Main.ProcessDocumentRequest) (st : Main.Storage) (w : World) :
  known_patient request st = true ->
  exists g,
    profile_of_call request st w = Some g
    /\ GoldPatientProfile.patient_id (Gold.obj g) = Main.patient_id request
    /\ primary_conditions (Gold.obj g) ++ comorbidities (Gold.obj g)
       = diagnoses_by_rule (Main.document_content request)
    /\ profiles_of (Main.patient_id request)
         (Main.gold_profiles (storage_after request st w))
       = tl (profiles_of (Main.patient_id request) (Main.gold_profiles st))
         ++ [g]
    /\ forall pid', pid' <> Main.patient_id request ->
         profiles_of pid' (Main.gold_profiles (storage_after request st w))
         = profiles_of pid' (Main.gold_profiles st).
Proof.
  intros Hk. destruct (known_patient_find _ _ Hk) as [p Hp].
  unfold profile_of_call, storage_after.
  rewrite process_document_run, Hp. cbn zeta.
  rewrite new_bronze_document_run. cbn [fst snd Bronze.obj].
  rewrite bronze_to_silver_document_spec. cbn [fst snd].
  rewrite silver_to_gold_patient_spec.
  cbn [fst snd Main.gold_profiles BronzeDocument.raw_content].
  eexists. split; [reflexivity|]. cbn [Gold.obj GoldPatientProfile.patient_id].
  split; [reflexivity|]. split.
  - cbn [primary_conditions comorbidities]. rewrite firstn_skipn.
    unfold values_of_type, type_is.
    rewrite <- diagnosis_fields_values, <- filter_diagnosis_extract_fields.
    match goal with
    | |- context [stamp_list ?clk ?k ?l] =>
        rewrite <- (filter_stamp_list _ clk l k)
    end.
    now rewrite map_map.
  - apply update_gold_profiles_spec. reflexivity.
Qed.

Lemma process_document_replaces_profile_witness :
  exists g,
    profile_of_call sample_request sample_storage sample_world = Some g
    /\ profiles_of (py "P001")
         (Main.gold_profiles
            (storage_after sample_request sample_storage sample_world))
       = [g]
    /\ primary_conditions (Gold.obj g)
       = [py "Type 2 Diabetes"; py "Essential Hypertension"].
Proof.
  destruct (process_document_replaces_profile sample_request sample_storage
              sample_world) as [g [H1 [_ [_ [H2 _]]]]].
  - reflexivity.
  - exists g. split; [exact H1|]. split; [exact H2|].
    vm_compute in H1. inversion H1. reflexivity.
Defined.

(** A store with at most one profile per patient stays so under the
    endpoint, whoever the request is for; and after a request for a
    patient of the store it holds exactly one profile of that patient,
    the one the call returned. *)
Theorem process_document_keeps_one_profile
    (request : Main.ProcessDocumentRequest) (st : Main.Storage) (w : World) :
  one_profile_per_patient (Main.gold_profiles st) ->
  one_profile_per_patient (Main.gold_profiles (storage_after request st w))
  /\ (known_patient request st = true ->
      option_map (fun g => [g]) (profile_of_call request st w)
      = Some (profiles_of (Main.patient_id request)
                (Main.gold_profiles (storage_after request st w)))).
Proof.
  intros Hone.
  destruct (known_patient request st) eqn:Hk.
  - destruct (process_document_known request st w Hk) as [g [H1 [Hg Hs]]].
    destruct (update_gold_profiles_spec (Main.gold_profiles st)
                (Main.patient_id request) g Hg) as [H2 H3].
    rewrite <- Hs in H2, H3.
    assert (Htl : tl (profiles_of (Main.patient_id request)
                        (Main.gold_profiles st)) = []).
    { specialize (Hone (Main.patient_id request)).
      destruct (profiles_of _ (Main.gold_profiles st)) as [|a [|b l]];
        simpl in *; [reflexivity|reflexivity|lia]. }
    rewrite Htl in H2. split.
    + intros pid.
      destruct (list_eq_dec ascii_dec pid (Main.patient_id request))
        as [->|Hne].
      * rewrite H2. simpl. lia.
      * rewrite (H3 pid Hne). apply Hone.
    + intros _. now rewrite H1, H2.
  - split; [|discriminate].
    unfold storage_after.
    rewrite process_document_run, (unknown_patient_find _ _ Hk).
    cbn [fst Main.gold_profiles]. exact Hone.
Qed.

Lemma process_document_keeps_one_profile_witness :
  one_profile_per_patient
    (Main.gold_profiles
       (storage_after sample_request sample_storage sample_world)).
Proof.
  apply (process_document_keeps_one_profile sample_request sample_storage
           sample_world).
  intros pid. unfold sample_storage, profiles_of.
  cbn [Main.gold_profiles filter]. destruct (str_eqb _ pid); simpl; lia.
Defined.

End Endpoint.

(* ================================================================= *)
(** ** What the endpoint stores *)

Section EndpointStorage.

(** Whoever the request is for, the endpoint adds the document (with an
    id made of the patient id and the number of documents then stored,
    and the time of ingestion read from the clock) and the extracted
    entities at the end of their lists and leaves the patients alone.
    For a patient that is not in the store it returns no profile, leaves
    the profiles alone and logs the extraction only; for a patient of the
    store it logs extraction and aggregation. *)
Theorem process_document_stores_document
    (request : Main.ProcessDocumentRequest) (st : Main.Storage) (w : World) :
  let st' := storage_after request st w in
  let w' := snd (Main.process_document request st w) in
  (exists doc,
     Main.bronze_documents st' = Main.bronze_documents st ++ [doc]
     /\ BronzeDocument.document_id (Bronze.obj doc)
        = py "doc_" ++ Main.patient_id request ++ py "_"
          ++ str_of_nat (S (length (Main.bronze_documents st)))
     /\ BronzeDocument.raw_content (Bronze.obj doc)
        = Main.document_content request
     /\ BronzeDocument.ingestion_timestamp (Bronze.obj doc)
        = Some (clock w (ticks w)))
  /\ Main.silver_entities st'
     = Main.silver_entities st ++ entities_of_call request st w
  /\ entities_of_call request st w
     = stamp_list (clock w) (S (S (ticks w)))
         (extract_fields (Main.document_content request))
  /\ Main.patients st' = Main.patients st
  /\ (if known_patient request st
      then profile_of_call request st w <> None
           /\ length (transformation_log w')
              = 2 + length (transformation_log w)
      else profile_of_call request st w = None
           /\ Main.gold_profiles st' = Main.gold_profiles st
           /\ length (transformation_log w')
              = 1 + length (transformation_log w)).
Proof.
  cbn zeta. unfold storage_after, entities_of_call, profile_of_call.
  rewrite process_document_run. cbn zeta.
  rewrite new_bronze_document_run. cbn [fst snd Bronze.obj].
  rewrite bronze_to_silver_document_spec.
  cbn [fst snd BronzeDocument.raw_content clock ticks transformation_log].
  destruct (known_patient request st) eqn:Hk.
  - destruct (known_patient_find _ _ Hk) as [p ->].
    rewrite silver_to_gold_patient_spec.
    cbn [fst snd Main.bronze_documents Main.silver_entities Main.patients
         transformation_log].
    repeat split.
    + eexists. split; [reflexivity|]. cbn [Bronze.obj].
      repeat split. cbn. now rewrite Nat.add_1_r.
    + discriminate.
    + rewrite !length_app. simpl. lia.
  - rewrite (unknown_patient_find _ _ Hk).
    cbn [fst snd Main.bronze_documents Main.silver_entities Main.patients
         Main.gold_profiles transformation_log].
    repeat split.
    + eexists. split; [reflexivity|]. cbn [Bronze.obj].
      repeat split. cbn. now rewrite Nat.add_1_r.
    + rewrite !length_app. simpl. lia.
Qed.

End EndpointStorage.

(* ================================================================= *)
(** ** The order of the entities and the range of the business value *)

Section OrderAndRange.

Lemma map_type_repeat (l : list SilverClinicalEntity.t) (ty : str) :
  (forall x, In x l -> entity_type x = ty) ->
  map entity_type l = repeat ty (length l).
Proof.
  induction l as [|x l IH]; intros H; simpl; [reflexivity|].
  rewrite (H x) by now left. f_equal. apply IH. intros y Hy. apply H.
  now right.
Qed.

(** Extraction returns the entities by kind, not by place in the text:
    first every medication, then every diagnosis, then every lab value;
    within a kind they follow the rule table, and within a rule the
    text. *)
Theorem extraction_groups_by_kind (d : BronzeDocument.t) (w : World) :
  let text := BronzeDocument.raw_content d in
  map (fun e => entity_type (obj e)) (fst (bronze_to_silver_document d w))
  = repeat (py "medication") (length (medication_fields text))
    ++ repeat (py "diagnosis") (length (diagnosis_fields text))
    ++ repeat (py "lab_value") (length (lab_fields text))
  /\ map (@obj _) (fst (bronze_to_silver_document d w))
     = medication_fields text ++ diagnosis_fields text ++ lab_fields text.
Proof.
  cbn zeta. rewrite bronze_to_silver_document_spec. cbn [fst].
  rewrite <- (map_map (@obj _) entity_type), stamp_list_obj.
  split; [|reflexivity].
  unfold extract_fields. rewrite !map_app.
  rewrite (map_type_repeat _ _ (medication_fields_type _)),
    (map_type_repeat _ _ (diagnosis_fields_type _)),
    (map_type_repeat _ _ (lab_fields_type _)).
  reflexivity.
Qed.

Lemma business_value_counts (p : GoldPatientProfile.t) :
  GoldPatientProfile._calculate_business_value p
  = business_value_of_counts
      (nonempty (geographic_location p))
      (negb (age_years p =? 0)%Z)
      (nonempty (GoldPatientProfile.sex p))
      (length (primary_conditions p)) (length (comorbidities p))
      (length (current_medications p)).
Proof.
  unfold GoldPatientProfile._calculate_business_value, completeness,
    completeness_flags, richness, len, business_value_of_counts.
  destruct (primary_conditions p), (current_medications p); reflexivity.
Qed.

Lemma values_in_range_to_40 :
  forallb (fun flags : bool * bool * bool =>
             forallb (fun nd =>
                        forallb (fun nm =>
                                   value_in_range (fst (fst flags))
                                     (snd (fst flags)) (snd flags) nd nm)
                          (seq 0 41))
               (seq 0 41))
    (list_prod (list_prod [true; false] [true; false]) [true; false])
  = true.
Proof. vm_compute. reflexivity. Qed.

(** For an entity list with at most 40 diagnoses and at most 40
    medications, and any demographics, the business value of the
    aggregated profile lies between 0 and 1, the rounding of the
    floating-point sums included. *)
Theorem business_value_in_range
    (patient_id : str) (entities : list Entity) (d : Demographics.t)
    (w : World) :
  length (values_of_type "diagnosis" entities) <= 40 ->
  length (values_of_type "medication" entities) <= 40 ->
  let v :=
    Gold._business_value
      (fst (silver_to_gold_patient patient_id entities d w)) in
  PrimFloat.leb 0 v = true /\ PrimFloat.leb v 1 = true.
Proof.
  intros Hd Hm. cbn zeta. rewrite silver_to_gold_patient_spec.
  cbn [fst Gold._business_value]. rewrite business_value_counts.
  cbn [geographic_location age_years GoldPatientProfile.sex
       primary_conditions comorbidities current_medications].
  rewrite length_firstn, length_skipn.
  pose proof values_in_range_to_40 as H.
  rewrite forallb_forall in H.
  set (loc := nonempty _). set (age := negb _). set (sex := nonempty _).
  specialize (H (loc, age, sex)).
  rewrite forallb_forall in H.
  assert (Hin : In (loc, age, sex)
                  (list_prod (list_prod [true; false] [true; false])
                     [true; false]))
    by (destruct loc, age, sex; simpl; auto 10).
  specialize (H Hin (length (values_of_type "diagnosis" entities))).
  rewrite forallb_forall in H.
  assert (Hnd : In (length (values_of_type "diagnosis" entities)) (seq 0 41))
    by (apply in_seq; lia).
  specialize (H Hnd (length (values_of_type "medication" entities))).
  assert (Hnm : In (length (values_of_type "medication" entities))
                  (seq 0 41)) by (apply in_seq; lia).
  specialize (H Hnm). cbn [fst snd] in H.
  unfold value_in_range in H. apply andb_true_iff in H. exact H.
Qed.

Lemma business_value_in_range_witness :
  PrimFloat.leb
    (Gold._business_value
       (fst (silver_to_gold_patient (py "P001")
               (map diagnosis_entity
                  [py "Obesity"; py "Hyperlipidemia"; py "Obesity";
                   py "Obesity"])
               demographics_A sample_world))) 1
  = true.
Proof.
  apply (business_value_in_range (py "P001")
           (map diagnosis_entity
              [py "Obesity"; py "Hyperlipidemia"; py "Obesity";
               py "Obesity"])
           demographics_A sample_world).
  - simpl. lia.
  - simpl. lia.
Defined.

End OrderAndRange.
